(** * BindCraft design loop (no_filtering.py): shallow embedding and properties

    The script is one [while True] loop that samples a design, checks the
    design directories for an existing trajectory, calls the hallucination,
    relaxation, scoring, redesign and prediction functions of [functions.py]
    and appends rows to three CSV tables.  Those functions are external to
    the script: they are modelled as handlers over an arbitrary environment
    [Env], and every call the script makes is recorded, in order, in a
    trace of events.  Statements about "rows written", "files copied" or
    "a collaborator being invoked" are statements about that trace.

    Modelling conventions.
    - Floats are an abstract type [F]; the float operations the script
      performs ([round(v, 2)], the subtraction of two time stamps and the
      hours/minutes/seconds text) are fields of the collaborator record.
    - A call that raises (a handler failing, a [KeyError] on a missing
      settings key) aborts the whole script; raising is not modelled, the
      handlers are total and the settings keys read by subscript are typed
      record fields.  Keys read with [.get(key, default)] are optional.
    - [print] writes to standard output only: it is recorded in the trace
      and leaves the environment unchanged.
    - Arguments that are the same at every call (target settings, model
      lists, the advanced settings dictionary, the failure CSV path) are not
      repeated in the handlers' signatures. *)

From stdpp Require Import base strings list gmap pretty.
From Stdlib Require Import ZArith Lia Ascii.

(** ** Python values and dictionaries *)

Section BindCraft.

Context {F Env : Type}.

Inductive pyval : Type :=
  | PNone
  | PBool (b : bool)
  | PInt (z : Z)
  | PFloat (x : F)
  | PStr (s : string).

(** [v == s] for a string literal [s]. *)
Definition py_eq_str (v : pyval) (s : string) : bool :=
  match v with
  | PStr s' => bool_decide (s' = s)
  | _ => false
  end.

(** [d.get(k, dflt)] *)
Definition dict_get (d : gmap string pyval) (k : string) (dflt : pyval) : pyval :=
  default dflt (d !! k).

(** [str(b)] for a Python bool. *)
Definition str_bool (b : bool) : string := if b then "True" else "False".

(** [os.path.join(a, b)] on POSIX. *)
Definition os_path_join (a b : string) : string :=
  match b with
  | String "/"%char _ => b
  | _ =>
    if bool_decide (a = "") then b
    else if bool_decide (String.substring (String.length a - 1) 1 a = "/")
         then a +:+ b
         else a +:+ "/" +:+ b
  end.

(** [min(l)], [max(l)] of a non-empty list and [np.arange(a, b)]. *)
Definition py_min (l : list Z) : Z := foldr Z.min (hd 0%Z l) l.
Definition py_max (l : list Z) : Z := foldr Z.max (hd 0%Z l) l.
Definition np_arange (a b : Z) : list Z :=
  (λ k, (a + Z.of_nat k)%Z) <$> seq 0 (Z.to_nat (b - a)).

(** ** Settings *)

Record target_settings_t := {
  binder_name : string;
  lengths : list Z;
  target_hotspot_residues : pyval;
}.

(** [advanced_settings]: the keys the loop reads.  The [_key] field is
    read with [.get(_, False)]; [None] is an absent key. *)
Record advanced_settings_t := {
  stop_after_mpnn_generation_key : option bool;
  design_algorithm : pyval;
  enable_mpnn : bool;
  max_mpnn_sequences : Z;
  remove_unrelaxed_complex : bool;
  remove_binder_monomer : bool;
  remove_unrelaxed_trajectory : bool;
}.

(** Line 30: [advanced_settings.get("stop_after_mpnn_generation", False)]. *)
Definition stop_after_mpnn_generation (adv : advanced_settings_t) : bool :=
  default false (stop_after_mpnn_generation_key adv).

(** ** Results of the collaborators *)

(** The object returned by [binder_hallucination].  The chain of
    [hasattr]/[in] probes of line 127 succeeds exactly when
    [tmp_best_aux_log] is [Some]; the probes of line 147 exactly when
    [aux_log] is [Some]. *)
Record trajectory_t := {
  tmp_best_aux_log : option (gmap string pyval);
  aux_log : option (gmap string pyval);
  get_seq_best : pyval;
}.

(** The dictionary returned by [score_interface], with the keys the script
    subscripts. *)
Record interface_scores_t := {
  binder_score : pyval;
  surface_hydrophobicity : pyval;
  interface_sc : pyval;
  interface_packstat : pyval;
  interface_dG : pyval;
  interface_dSASA : pyval;
  interface_dG_SASA_ratio : pyval;
  interface_hb_bb_sc : pyval;
  interface_hb_sc_sc : pyval;
  interface_hb_bb_bb_longrange : pyval;
  interface_hb_bb_bb_shortrange : pyval;
}.

(** The 8-tuple returned by [calc_ss_percentage]. *)
Record ss_percentage_t := {
  ss_alpha : pyval;
  ss_beta : pyval;
  ss_loops : pyval;
  ss_alpha_interface : pyval;
  ss_beta_interface : pyval;
  ss_loops_interface : pyval;
  ss_i_plddt : pyval;
  ss_ss_plddt : pyval;
}.

Inductive table : Type := trajectory_csv | mpnn_csv | final_csv.

Global Instance table_eq_dec : EqDecision table.
Proof. solve_decision. Defined.

(** ** Events: the calls the script makes, in order *)

Inductive event : Type :=
  | Ev_check_accepted_designs
  | Ev_check_n_trajectories
  | Ev_time
  | Ev_randint (low high : Z)
  | Ev_choice (samples : list Z)
  | Ev_load_helicity
  | Ev_print (msg : string)
  | Ev_binder_hallucination (design_name : string) (length seed : Z)
                            (helicity_value : pyval)
  | Ev_pr_relax (pdb relaxed : string)
  | Ev_calculate_clash_score (pdb : string)
  | Ev_calc_ss_percentage (pdb chain : string)
  | Ev_score_interface (pdb chain : string)
  | Ev_validate_design_sequence (sequence clashes : pyval)
  | Ev_target_pdb_rmsd (pdb : string)
  | Ev_interface_pdb_rmsd (trajectory_pdb relaxed chain : string)
  | Ev_binder_pdb_rmsd (relaxed : string) (monomer : option string)
                       (chain : string)
  | Ev_add_row_to_csv (csv : table) (row : list pyval)
  | Ev_mpnn_gen_sequence (design_name : string)
  | Ev_predict_binder_complex (sequence mpnn_design_name : string)
  | Ev_predict_binder_alone (sequence mpnn_design_name : string)
  | Ev_apply_initial_filters (metrics : gmap string pyval)
  | Ev_apply_final_filters (row : list pyval) (mpnn_design_name : string)
  | Ev_copy_file (src : option string) (dst : string)
  | Ev_remove_file (path : option string).

(** ** The collaborators *)

Record collaborators := {
  check_accepted_designs : Env → bool * Env;
  check_n_trajectories : Env → bool * Env;
  time_time : Env → F * Env;
  np_random_randint : Z → Z → Env → Z * Env;
  np_random_choice : list Z → Env → Z * Env;
  load_helicity : Env → pyval * Env;
  design_paths : string → string;
  os_path_exists : string → Env → bool;
  binder_hallucination : string → Z → Z → pyval → Env → trajectory_t * Env;
  pr_relax : string → string → Env → Env;
  calculate_clash_score : string → Env → pyval * Env;
  calc_ss_percentage : string → string → Env → ss_percentage_t * Env;
  score_interface :
    string → string → Env → (interface_scores_t * pyval * pyval) * Env;
  validate_design_sequence : pyval → pyval → Env → pyval * Env;
  target_pdb_rmsd : string → Env → pyval * Env;
  interface_pdb_rmsd : string → string → string → Env → pyval * Env;
  binder_pdb_rmsd : string → option string → string → Env → pyval * Env;
  add_row_to_csv : table → list pyval → Env → Env;
  mpnn_gen_sequence : trajectory_t → string → Env → list (string * pyval) * Env;
  predict_binder_complex :
    string → string → Env → (gmap string pyval * option string) * Env;
  predict_binder_alone :
    string → string → Env → (gmap string pyval * option string) * Env;
  apply_initial_filters : gmap string pyval → Env → bool * Env;
  apply_final_filters : list pyval → string → Env → bool * Env;
  copy_file : option string → string → Env → Env;
  remove_file : option string → Env → Env;
  float_sub : F → F → F;
  round2 : F → F;
  time_text : F → string;
}.

(** ** The monad: environment passing with a trace of the calls made *)

Definition M (A : Type) : Type := Env → A * Env * list event.

Global Instance M_ret : MRet M := λ A a e, (a, e, []).
Global Instance M_bind : MBind M := λ A B f m e,
  let '(a, e1, t1) := m e in
  let '(b, e2, t2) := f a e1 in
  (b, e2, t1 ++ t2).

(** A call that returns a value. *)
Definition call {R} (ev : event) (h : Env → R * Env) : M R :=
  λ e, let '(r, e') := h e in (r, e', [ev]).
(** A call made for its effect. *)
Definition exec (ev : event) (h : Env → Env) : M () :=
  λ e, ((), h e, [ev]).
(** A read-only probe of the environment. *)
Definition probe {R} (h : Env → R) : M R := λ e, (h e, e, []).
Definition print (msg : string) : M () := λ e, ((), e, [Ev_print msg]).
Definition when (b : bool) (m : M ()) : M () := if b then m else mret ().

(** [emit tr x]: the outcome [x] of what remains to run, after the calls
    [tr] have been made. *)
Definition emit {A} (tr : list event) (x : A * Env * list event)
    : A * Env * list event :=
  (x.1.1, x.1.2, tr ++ x.2).

Definition result {A} (x : A * Env * list event) : A := x.1.1.
Definition env_after {A} (x : A * Env * list event) : Env := x.1.2.
Definition trace {A} (x : A * Env * list event) : list event := x.2.

End BindCraft.

Global Arguments pyval : clear implicits.
Global Arguments event : clear implicits.
Global Arguments trajectory_t : clear implicits.
Global Arguments interface_scores_t : clear implicits.
Global Arguments ss_percentage_t : clear implicits.
Global Arguments target_settings_t : clear implicits.
Global Arguments advanced_settings_t : clear implicits.
Global Arguments collaborators : clear implicits.
Global Arguments M : clear implicits.

(** ** The script *)

Section Script.

Context {F Env : Type}.
Context (C : collaborators F Env).
Context (target_settings : target_settings_t F).
Context (advanced_settings : advanced_settings_t F).

Local Abbreviation M := (M F Env).
Local Abbreviation dict := (gmap string (pyval F)).

(** Line 115. *)
Definition trajectory_dirs : list string :=
  ["Trajectory"; "Trajectory/Relaxed"; "Trajectory/LowConfidence";
   "Trajectory/Clashing"].

(** Line 116: [any(os.path.exists(os.path.join(design_paths[d],
    design_name + ".pdb")) for d in trajectory_dirs)]. *)
Definition trajectory_exists (design_name : string) (e : Env) : bool :=
  existsb
    (λ trajectory_dir,
       os_path_exists C
         (os_path_join (design_paths C trajectory_dir) (design_name +:+ ".pdb")) e)
    trajectory_dirs.

(** Line 137: [{k: round(v, 2) if isinstance(v, float) else v ...}]. *)
Definition round_metrics (metrics : dict) : dict :=
  (λ v, match v with PFloat x => PFloat (round2 C x) | _ => v end) <$> metrics.

(** Lines 127-131. *)
Definition get_trajectory_metrics (trajectory : trajectory_t F)
    (design_name : string) : M dict :=
  match tmp_best_aux_log trajectory with
  | Some log => mret log
  | None =>
    print ("Warning: Could not retrieve metrics from trajectory for "
           +:+ design_name
           +:+ ". Skipping detailed metrics for this trajectory.");;
    mret ∅
  end.

(** Line 147: the trajectory carries no termination signal. *)
Definition no_termination_signal (trajectory : trajectory_t F) : bool :=
  match aux_log trajectory with
  | Some log => py_eq_str (dict_get log "terminate" (PStr "Unknown")) ""
  | None => false
  end.

(** Lines 175-183. *)
Definition trajectory_data (design_name : string) (length seed : Z)
    (helicity_value trajectory_sequence trajectory_interface_residues : pyval F)
    (trajectory_metrics : dict) (ss : ss_percentage_t F)
    (num_clashes_trajectory num_clashes_relaxed : pyval F)
    (trajectory_interface_scores : interface_scores_t F)
    (traj_seq_notes trajectory_target_rmsd : pyval F)
    (trajectory_time_text : string) : list (pyval F) :=
  [ PStr design_name; design_algorithm advanced_settings; PInt length;
    PInt seed; helicity_value; target_hotspot_residues target_settings;
    trajectory_sequence; trajectory_interface_residues;
    dict_get trajectory_metrics "plddt" PNone;
    dict_get trajectory_metrics "ptm" PNone;
    dict_get trajectory_metrics "i_ptm" PNone;
    dict_get trajectory_metrics "pae" PNone;
    dict_get trajectory_metrics "i_pae" PNone;
    ss_i_plddt ss; ss_ss_plddt ss; num_clashes_trajectory; num_clashes_relaxed;
    binder_score trajectory_interface_scores;
    surface_hydrophobicity trajectory_interface_scores;
    interface_sc trajectory_interface_scores;
    interface_packstat trajectory_interface_scores;
    interface_dG trajectory_interface_scores;
    interface_dSASA trajectory_interface_scores;
    interface_dG_SASA_ratio trajectory_interface_scores;
    interface_hb_bb_sc trajectory_interface_scores;
    interface_hb_sc_sc trajectory_interface_scores;
    interface_hb_bb_bb_longrange trajectory_interface_scores;
    interface_hb_bb_bb_shortrange trajectory_interface_scores;
    ss_alpha ss; ss_beta ss; ss_loops ss; ss_alpha_interface ss;
    ss_beta_interface ss; ss_loops_interface ss; traj_seq_notes;
    dict_get trajectory_metrics "helix_probability" PNone;
    trajectory_target_rmsd; PStr trajectory_time_text;
    dict_get trajectory_metrics "terminate" PNone ].

(** Lines 275-284. *)
Definition mpnn_data (mpnn_design_name : string) (length seed : Z)
    (helicity_value : pyval F) (mpnn_sequence : string)
    (mpnn_interface_residues mpnn_score : pyval F)
    (mpnn_complex_metrics : dict) (ss : ss_percentage_t F)
    (num_clashes_mpnn num_clashes_mpnn_relaxed : pyval F)
    (mpnn_interface_scores : interface_scores_t F)
    (mpnn_monomer_metrics : dict)
    (mpnn_binder_rmsd mpnn_interface_rmsd mpnn_target_rmsd mpnn_seq_notes : pyval F)
    (trajectory_metrics : dict) : list (pyval F) :=
  [ PStr mpnn_design_name; design_algorithm advanced_settings; PInt length;
    PInt seed; helicity_value; target_hotspot_residues target_settings;
    PStr mpnn_sequence; mpnn_interface_residues; mpnn_score;
    dict_get mpnn_complex_metrics "plddt" PNone;
    dict_get mpnn_complex_metrics "ptm" PNone;
    dict_get mpnn_complex_metrics "i_ptm" PNone;
    dict_get mpnn_complex_metrics "pae" PNone;
    dict_get mpnn_complex_metrics "i_pae" PNone;
    ss_i_plddt ss; ss_ss_plddt ss; num_clashes_mpnn; num_clashes_mpnn_relaxed;
    binder_score mpnn_interface_scores;
    surface_hydrophobicity mpnn_interface_scores;
    interface_sc mpnn_interface_scores;
    interface_packstat mpnn_interface_scores;
    interface_dG mpnn_interface_scores;
    interface_dSASA mpnn_interface_scores;
    interface_dG_SASA_ratio mpnn_interface_scores;
    interface_hb_bb_sc mpnn_interface_scores;
    interface_hb_sc_sc mpnn_interface_scores;
    interface_hb_bb_bb_longrange mpnn_interface_scores;
    interface_hb_bb_bb_shortrange mpnn_interface_scores;
    ss_alpha ss; ss_beta ss; ss_loops ss; ss_alpha_interface ss;
    ss_beta_interface ss; ss_loops_interface ss;
    dict_get mpnn_monomer_metrics "plddt" PNone;
    dict_get mpnn_monomer_metrics "ptm" PNone;
    dict_get mpnn_monomer_metrics "pae" PNone;
    mpnn_binder_rmsd; mpnn_interface_rmsd; mpnn_target_rmsd; mpnn_seq_notes;
    dict_get trajectory_metrics "helix_probability" PNone ].

(** Line 153. *)
Definition binder_chain : string := "B".

(** Lines 249-284: relax the predicted complex, score it and assemble the
    per-sequence record. *)
Definition relax_and_score (trajectory_pdb mpnn_design_name mpnn_pdb_filename
    mpnn_complex_path : string) (length seed : Z) (helicity_value : pyval F)
    (mpnn_sequence : string) (mpnn_score : pyval F)
    (mpnn_complex_metrics mpnn_monomer_metrics : dict)
    (mpnn_monomer_pdb : option string) (trajectory_metrics : dict)
    : M (string * list (pyval F)) :=
  let mpnn_relaxed_path :=
    os_path_join (design_paths C "MPNN/Relaxed") mpnn_pdb_filename in
  exec (Ev_pr_relax mpnn_complex_path mpnn_relaxed_path)
       (pr_relax C mpnn_complex_path mpnn_relaxed_path);;
  num_clashes_mpnn ←
    call (Ev_calculate_clash_score mpnn_complex_path)
         (calculate_clash_score C mpnn_complex_path);
  num_clashes_mpnn_relaxed ←
    call (Ev_calculate_clash_score mpnn_relaxed_path)
         (calculate_clash_score C mpnn_relaxed_path);
  '(mpnn_interface_scores, mpnn_interface_AA, mpnn_interface_residues) ←
    call (Ev_score_interface mpnn_relaxed_path binder_chain)
         (score_interface C mpnn_relaxed_path binder_chain);
  mpnn_seq_notes ←
    call (Ev_validate_design_sequence (PStr mpnn_sequence) num_clashes_mpnn_relaxed)
         (validate_design_sequence C (PStr mpnn_sequence) num_clashes_mpnn_relaxed);
  ss ←
    call (Ev_calc_ss_percentage mpnn_relaxed_path binder_chain)
         (calc_ss_percentage C mpnn_relaxed_path binder_chain);
  mpnn_interface_rmsd ←
    call (Ev_interface_pdb_rmsd trajectory_pdb mpnn_relaxed_path binder_chain)
         (interface_pdb_rmsd C trajectory_pdb mpnn_relaxed_path binder_chain);
  mpnn_target_rmsd ←
    call (Ev_target_pdb_rmsd mpnn_relaxed_path)
         (target_pdb_rmsd C mpnn_relaxed_path);
  mpnn_binder_rmsd ←
    call (Ev_binder_pdb_rmsd mpnn_relaxed_path mpnn_monomer_pdb binder_chain)
         (binder_pdb_rmsd C mpnn_relaxed_path mpnn_monomer_pdb binder_chain);
  mret (mpnn_relaxed_path,
        mpnn_data mpnn_design_name length seed helicity_value mpnn_sequence
          mpnn_interface_residues mpnn_score mpnn_complex_metrics ss
          num_clashes_mpnn num_clashes_mpnn_relaxed mpnn_interface_scores
          mpnn_monomer_metrics mpnn_binder_rmsd mpnn_interface_rmsd
          mpnn_target_rmsd mpnn_seq_notes trajectory_metrics).

(** Lines 285-307: append the per-sequence record, apply the final filters,
    promote an accepted design and clean up.  Returns the new value of
    [mpnn_passes]. *)
Definition record_and_filter (row : list (pyval F))
    (mpnn_design_name mpnn_pdb_filename mpnn_complex_path mpnn_relaxed_path : string)
    (mpnn_monomer_pdb : option string) (mpnn_passes : Z) : M Z :=
  exec (Ev_add_row_to_csv mpnn_csv row) (add_row_to_csv C mpnn_csv row);;
  mpnn_final_filters_passed ←
    call (Ev_apply_final_filters row mpnn_design_name)
         (apply_final_filters C row mpnn_design_name);
  print ("MPNN design passed final filters: "
         +:+ str_bool mpnn_final_filters_passed);;
  mpnn_passes ←
    (if mpnn_final_filters_passed then
       let accepted := design_paths C "MPNN/Accepted" in
       let dst_complex := os_path_join accepted mpnn_pdb_filename in
       let dst_relaxed :=
         os_path_join accepted (mpnn_design_name +:+ "_relaxed.pdb") in
       let dst_monomer :=
         os_path_join accepted (mpnn_design_name +:+ "_monomer.pdb") in
       exec (Ev_copy_file (Some mpnn_complex_path) dst_complex)
            (copy_file C (Some mpnn_complex_path) dst_complex);;
       exec (Ev_copy_file (Some mpnn_relaxed_path) dst_relaxed)
            (copy_file C (Some mpnn_relaxed_path) dst_relaxed);;
       exec (Ev_copy_file mpnn_monomer_pdb dst_monomer)
            (copy_file C mpnn_monomer_pdb dst_monomer);;
       exec (Ev_add_row_to_csv final_csv row) (add_row_to_csv C final_csv row);;
       print ("Accepted design: " +:+ mpnn_design_name);;
       mret (mpnn_passes + 1)%Z
     else
       print ("Rejected design: " +:+ mpnn_design_name);;
       mret mpnn_passes);
  when (remove_unrelaxed_complex advanced_settings)
       (exec (Ev_remove_file (Some mpnn_complex_path))
             (remove_file C (Some mpnn_complex_path)));;
  when (remove_binder_monomer advanced_settings && negb mpnn_final_filters_passed)
       (exec (Ev_remove_file mpnn_monomer_pdb) (remove_file C mpnn_monomer_pdb));;
  mret mpnn_passes.

(** Lines 246-307: the branch taken when the complex prediction returned a
    structure. *)
Definition validate_predicted (trajectory_pdb mpnn_design_name
    mpnn_pdb_filename mpnn_complex_path : string) (length seed : Z)
    (helicity_value : pyval F) (mpnn_sequence : string) (mpnn_score : pyval F)
    (mpnn_complex_metrics mpnn_monomer_metrics : dict)
    (mpnn_monomer_pdb : option string) (trajectory_metrics : dict)
    (mpnn_passes : Z) : M Z :=
  mpnn_filters_passed ←
    call (Ev_apply_initial_filters mpnn_complex_metrics)
         (apply_initial_filters C mpnn_complex_metrics);
  print ("MPNN design passed initial filters: " +:+ str_bool mpnn_filters_passed);;
  '(mpnn_relaxed_path, row) ←
    relax_and_score trajectory_pdb mpnn_design_name mpnn_pdb_filename
      mpnn_complex_path length seed helicity_value mpnn_sequence mpnn_score
      mpnn_complex_metrics mpnn_monomer_metrics mpnn_monomer_pdb
      trajectory_metrics;
  record_and_filter row mpnn_design_name mpnn_pdb_filename mpnn_complex_path
    mpnn_relaxed_path mpnn_monomer_pdb mpnn_passes.

(** Lines 230-312: the body of the [for] loop after the cap test, for the
    candidate of index [i].  Returns the new value of [mpnn_passes]. *)
Definition validate_mpnn_design (design_name trajectory_pdb : string)
    (length seed : Z) (helicity_value : pyval F) (trajectory_metrics : dict)
    (i : nat) (candidate : string * pyval F) (mpnn_passes : Z) : M Z :=
  let '(mpnn_sequence, mpnn_score) := candidate in
  let mpnn_design_name := design_name +:+ "_mpnn_" +:+ pretty i in
  let mpnn_pdb_filename := mpnn_design_name +:+ ".pdb" in
  let mpnn_complex_path :=
    os_path_join (design_paths C "MPNN/Complex") mpnn_pdb_filename in
  print ("Starting design validation for " +:+ mpnn_design_name);;
  '(mpnn_complex_metrics, mpnn_complex_pdb) ←
    call (Ev_predict_binder_complex mpnn_sequence mpnn_design_name)
         (predict_binder_complex C mpnn_sequence mpnn_design_name);
  '(mpnn_monomer_metrics, mpnn_monomer_pdb) ←
    call (Ev_predict_binder_alone mpnn_sequence mpnn_design_name)
         (predict_binder_alone C mpnn_sequence mpnn_design_name);
  mpnn_passes ←
    match mpnn_complex_pdb with
    | Some _ =>
      validate_predicted trajectory_pdb mpnn_design_name
        mpnn_pdb_filename mpnn_complex_path length seed helicity_value
        mpnn_sequence mpnn_score mpnn_complex_metrics mpnn_monomer_metrics
        mpnn_monomer_pdb trajectory_metrics mpnn_passes
    | None =>
      print ("MPNN design prediction failed for: " +:+ mpnn_design_name);;
      mret mpnn_passes
    end;
  print "";;
  mret mpnn_passes.

(** Lines 226-312: [for i in range(len(mpnn_sequences))], entered at index
    [i] with the candidates from [i] on.  Returns the final
    [(mpnn_count, mpnn_passes)]. *)
Fixpoint mpnn_loop (design_name trajectory_pdb : string) (length seed : Z)
    (helicity_value : pyval F) (trajectory_metrics : dict)
    (candidates : list (string * pyval F)) (i : nat)
    (mpnn_count mpnn_passes : Z) : M (Z * Z) :=
  match candidates with
  | [] => mret (mpnn_count, mpnn_passes)
  | candidate :: rest =>
    if bool_decide (max_mpnn_sequences advanced_settings ≤ mpnn_passes)%Z then
      mret (mpnn_count, mpnn_passes)
    else
      mpnn_passes ←
        validate_mpnn_design design_name trajectory_pdb length seed
          helicity_value trajectory_metrics i candidate mpnn_passes;
      mpnn_loop design_name trajectory_pdb length seed helicity_value
        trajectory_metrics rest (S i) (mpnn_count + 1)%Z mpnn_passes
  end.

(** Lines 318-321: the end of a completed trajectory. *)
Definition finish_trajectory (design_name : string) (trajectory_n : Z) : M Z :=
  let trajectory_n := (trajectory_n + 1)%Z in
  print ("Finished trajectory: " +:+ design_name);;
  print "------------------------------------------------------------";;
  print "";;
  mret trajectory_n.

(** Lines 188-316: the redesign stage of a scored trajectory, followed by
    the end of the trajectory.  The [continue] of line 216 leaves the
    iteration at once, so the early-stop branch returns without running
    lines 315-321.  Returns the new value of [trajectory_n]. *)
Definition mpnn_stage (trajectory : trajectory_t F)
    (design_name trajectory_pdb : string) (length seed : Z)
    (helicity_value : pyval F) (trajectory_metrics : dict)
    (trajectory_n : Z) : M Z :=
  if enable_mpnn advanced_settings then
    mpnn_sequences ←
      call (Ev_mpnn_gen_sequence design_name)
           (mpnn_gen_sequence C trajectory design_name);
    (match mpnn_sequences with
     | [] => print ("MPNN did not generate any sequences for " +:+ design_name)
     | _ => print ("MPNN generated " +:+ pretty (List.length mpnn_sequences)
                   +:+ " sequences for " +:+ design_name)
     end);;
    if stop_after_mpnn_generation advanced_settings then
      (match mpnn_sequences with
       | [] => print ("No MPNN sequences generated for " +:+ design_name
                      +:+ ". Skipping revalidation/filtering (as stop_after_mpnn_generation is true).")
       | _ => print ("Stopping after MPNN generation for " +:+ design_name
                     +:+ " as requested.")
       end);;
      mret (trajectory_n + 1)%Z
    else
      mpnn_loop design_name trajectory_pdb length seed helicity_value
        trajectory_metrics mpnn_sequences 0 1%Z 0%Z;;
      when (remove_unrelaxed_trajectory advanced_settings)
           (exec (Ev_remove_file (Some trajectory_pdb))
                 (remove_file C (Some trajectory_pdb)));;
      finish_trajectory design_name trajectory_n
  else
    finish_trajectory design_name trajectory_n.

(** Lines 148-185: relax and score the trajectory and append its record to
    the trajectory table. *)
Definition score_trajectory (trajectory : trajectory_t F)
    (design_name trajectory_pdb : string) (length seed : Z)
    (helicity_value : pyval F) (trajectory_metrics : dict)
    (trajectory_time_text : string) : M () :=
  let trajectory_relaxed :=
    os_path_join (design_paths C "Trajectory/Relaxed") (design_name +:+ ".pdb") in
  exec (Ev_pr_relax trajectory_pdb trajectory_relaxed)
       (pr_relax C trajectory_pdb trajectory_relaxed);;
  num_clashes_trajectory ←
    call (Ev_calculate_clash_score trajectory_pdb)
         (calculate_clash_score C trajectory_pdb);
  num_clashes_relaxed ←
    call (Ev_calculate_clash_score trajectory_relaxed)
         (calculate_clash_score C trajectory_relaxed);
  ss ←
    call (Ev_calc_ss_percentage trajectory_pdb binder_chain)
         (calc_ss_percentage C trajectory_pdb binder_chain);
  '(trajectory_interface_scores, trajectory_interface_AA,
    trajectory_interface_residues) ←
    call (Ev_score_interface trajectory_relaxed binder_chain)
         (score_interface C trajectory_relaxed binder_chain);
  let trajectory_sequence := get_seq_best trajectory in
  traj_seq_notes ←
    call (Ev_validate_design_sequence trajectory_sequence num_clashes_relaxed)
         (validate_design_sequence C trajectory_sequence num_clashes_relaxed);
  trajectory_target_rmsd ←
    call (Ev_target_pdb_rmsd trajectory_pdb) (target_pdb_rmsd C trajectory_pdb);
  let row :=
    trajectory_data design_name length seed helicity_value trajectory_sequence
      trajectory_interface_residues trajectory_metrics ss
      num_clashes_trajectory num_clashes_relaxed trajectory_interface_scores
      traj_seq_notes trajectory_target_rmsd trajectory_time_text in
  exec (Ev_add_row_to_csv trajectory_csv row)
       (add_row_to_csv C trajectory_csv row).

(** Lines 119-328: the branch taken when no trajectory of that name exists.
    Returns the new value of [trajectory_n]. *)
Definition run_trajectory (design_name : string) (length seed : Z)
    (helicity_value : pyval F) (trajectory_start_time : F)
    (trajectory_n : Z) : M Z :=
  print ("Starting trajectory: " +:+ design_name);;
  trajectory ←
    call (Ev_binder_hallucination design_name length seed helicity_value)
         (binder_hallucination C design_name length seed helicity_value);
  trajectory_metrics ← get_trajectory_metrics trajectory design_name;
  let trajectory_pdb :=
    os_path_join (design_paths C "Trajectory") (design_name +:+ ".pdb") in
  let trajectory_metrics := round_metrics trajectory_metrics in
  now ← call Ev_time (time_time C);
  let trajectory_time := float_sub C now trajectory_start_time in
  let trajectory_time_text := time_text C trajectory_time in
  print ("Starting trajectory took: " +:+ trajectory_time_text);;
  print "";;
  if no_termination_signal trajectory then
    score_trajectory trajectory design_name trajectory_pdb length seed
      helicity_value trajectory_metrics trajectory_time_text;;
    mpnn_stage trajectory design_name trajectory_pdb length seed helicity_value
      trajectory_metrics trajectory_n
  else
    print ("Trajectory " +:+ design_name +:+ " terminated.");;
    let trajectory_n := (trajectory_n + 1)%Z in
    print "------------------------------------------------------------";;
    print "";;
    mret trajectory_n.

(** Line 114. *)
Definition make_design_name (length seed : Z) : string :=
  binder_name target_settings +:+ "_l" +:+ pretty length +:+ "_s" +:+ pretty seed.

(** Lines 114-333: from the design name on.  Returns the new value of
    [trajectory_n]. *)
Definition design_step (design_name : string) (length seed : Z)
    (helicity_value : pyval F) (trajectory_start_time : F)
    (trajectory_n : Z) : M Z :=
  trajectory_exists ← probe (trajectory_exists design_name);
  if negb trajectory_exists then
    run_trajectory design_name length seed helicity_value trajectory_start_time
      trajectory_n
  else
    print ("Trajectory " +:+ design_name +:+ " already exists, skipping");;
    print "";;
    mret trajectory_n.

(** How one pass through the body of [while True] ends. *)
Inductive control : Type := Break | Next.

(** Lines 86-333: one pass through the body of the design loop. *)
Definition loop_body (trajectory_n : Z) : M (control * Z) :=
  final_designs_reached ←
    call Ev_check_accepted_designs (check_accepted_designs C);
  if (final_designs_reached : bool) then mret (Break, trajectory_n)
  else
    max_trajectories_reached ←
      call Ev_check_n_trajectories (check_n_trajectories C);
    if (max_trajectories_reached : bool) then mret (Break, trajectory_n)
    else
      trajectory_start_time ← call Ev_time (time_time C);
      seed ← call (Ev_randint 0 999999) (np_random_randint C 0 999999);
      let samples :=
        np_arange (py_min (lengths target_settings))
                  (py_max (lengths target_settings) + 1) in
      length ← call (Ev_choice samples) (np_random_choice C samples);
      helicity_value ← call Ev_load_helicity (load_helicity C);
      let design_name := make_design_name length seed in
      trajectory_n ←
        design_step design_name length seed helicity_value
          trajectory_start_time trajectory_n;
      mret (Next, trajectory_n).

(** Lines 85-333: the design loop, run for at most [fuel] passes.  [None]
    when the loop has not stopped within [fuel] passes. *)
Fixpoint design_loop (fuel : nat) (trajectory_n : Z) : M (option Z) :=
  match fuel with
  | 0 => mret None
  | S fuel =>
    '(ctl, trajectory_n) ← loop_body trajectory_n;
    match ctl with
    | Break => mret (Some trajectory_n)
    | Next => design_loop fuel trajectory_n
    end
  end.

End Script.

(** The same collaborators, with other initial filters. *)
Definition with_initial_filters {F Env} (C : collaborators F Env)
    (filters : gmap string (pyval F) → Env → bool * Env) : collaborators F Env :=
  {| check_accepted_designs := check_accepted_designs C;
     check_n_trajectories := check_n_trajectories C;
     time_time := time_time C;
     np_random_randint := np_random_randint C;
     np_random_choice := np_random_choice C;
     load_helicity := load_helicity C;
     design_paths := design_paths C;
     os_path_exists := os_path_exists C;
     binder_hallucination := binder_hallucination C;
     pr_relax := pr_relax C;
     calculate_clash_score := calculate_clash_score C;
     calc_ss_percentage := calc_ss_percentage C;
     score_interface := score_interface C;
     validate_design_sequence := validate_design_sequence C;
     target_pdb_rmsd := target_pdb_rmsd C;
     interface_pdb_rmsd := interface_pdb_rmsd C;
     binder_pdb_rmsd := binder_pdb_rmsd C;
     add_row_to_csv := add_row_to_csv C;
     mpnn_gen_sequence := mpnn_gen_sequence C;
     predict_binder_complex := predict_binder_complex C;
     predict_binder_alone := predict_binder_alone C;
     apply_initial_filters := filters;
     apply_final_filters := apply_final_filters C;
     copy_file := copy_file C;
     remove_file := remove_file C;
     float_sub := float_sub C;
     round2 := round2 C;
     time_text := time_text C |}.

(** ** Observations on traces *)

Section Observations.

Context {F : Type}.

Definition is_hallucination (ev : event F) : bool :=
  match ev with Ev_binder_hallucination _ _ _ _ => true | _ => false end.

Definition is_prediction (ev : event F) : bool :=
  match ev with
  | Ev_predict_binder_complex _ _ | Ev_predict_binder_alone _ _ => true
  | _ => false
  end.

Definition is_complex_prediction (ev : event F) : bool :=
  match ev with Ev_predict_binder_complex _ _ => true | _ => false end.

Definition is_add_row (t : table) (ev : event F) : bool :=
  match ev with
  | Ev_add_row_to_csv t' _ => bool_decide (t' = t)
  | _ => false
  end.

(** Relaxation and scoring of a structure. *)
Definition is_relax_or_score (ev : event F) : bool :=
  match ev with
  | Ev_pr_relax _ _ | Ev_calculate_clash_score _ | Ev_calc_ss_percentage _ _
  | Ev_score_interface _ _ | Ev_validate_design_sequence _ _
  | Ev_target_pdb_rmsd _ | Ev_interface_pdb_rmsd _ _ _
  | Ev_binder_pdb_rmsd _ _ _ => true
  | _ => false
  end.

Definition is_copy (ev : event F) : bool :=
  match ev with Ev_copy_file _ _ => true | _ => false end.

Definition is_print (ev : event F) : bool :=
  match ev with Ev_print _ => true | _ => false end.

(** The calls that validate a redesigned sequence: prediction, relaxation,
    scoring, filtering, and the writes that follow them. *)
Definition is_validation (ev : event F) : bool :=
  match ev with
  | Ev_predict_binder_complex _ _ | Ev_predict_binder_alone _ _
  | Ev_pr_relax _ _ | Ev_calculate_clash_score _ | Ev_calc_ss_percentage _ _
  | Ev_score_interface _ _ | Ev_validate_design_sequence _ _
  | Ev_target_pdb_rmsd _ | Ev_interface_pdb_rmsd _ _ _
  | Ev_binder_pdb_rmsd _ _ _ | Ev_apply_initial_filters _
  | Ev_apply_final_filters _ _ | Ev_copy_file _ _ => true
  | Ev_add_row_to_csv t _ => bool_decide (t ≠ trajectory_csv)
  | _ => false
  end.

(** What the redesign stage of a trajectory with metrics
    [trajectory_metrics] may do: it makes none of the calls of the outer
    loop, writes no trajectory row, and each row it writes has 43 columns,
    the last of which (index 42, the helix probability) is the
    trajectory's. *)
Definition sub_loop_event (trajectory_metrics : gmap string (pyval F))
    (ev : event F) : Prop :=
  match ev with
  | Ev_check_accepted_designs | Ev_check_n_trajectories
  | Ev_binder_hallucination _ _ _ _ => False
  | Ev_add_row_to_csv t row =>
    t ≠ trajectory_csv ∧ List.length row = 43 ∧
    row !! 42 = Some (dict_get trajectory_metrics "helix_probability" PNone)
  | _ => True
  end.

(** Number of events of a kind in a trace. *)
Definition count (p : event F → bool) (tr : list (event F)) : nat :=
  List.length (List.filter p tr).

(** The rows appended to a table, in order. *)
Fixpoint rows_of (t : table) (tr : list (event F)) : list (list (pyval F)) :=
  match tr with
  | [] => []
  | Ev_add_row_to_csv t' row :: tr =>
    if bool_decide (t' = t) then row :: rows_of t tr else rows_of t tr
  | _ :: tr => rows_of t tr
  end.

(** The trace without what is only printed. *)
Definition without_prints (tr : list (event F)) : list (event F) :=
  List.filter (λ ev, negb (is_print ev)) tr.

End Observations.

(** ** A concrete environment

    A small deterministic world on which the script can be run: the files
    that exist, the number of accepted rows and of started trajectories,
    and the number of random draws made.  Floats are integers here.  A
    [scenario] fixes what the collaborators answer. *)

Module Demo.

Record world := {
  files : list string;
  accepted : nat;
  started : nat;
  draws : nat;
}.

Record scenario := {
  sc_terminate : string;              (* termination signal of a trajectory *)
  sc_candidates : list (string * pyval Z);  (* what the redesign returns *)
  sc_predicts : string → bool;        (* does the complex prediction succeed *)
  sc_initial : bool;                  (* answer of the initial filters *)
  sc_final : string → bool;           (* answer of the final filters, by name *)
  sc_target : nat;                    (* accepted designs wanted *)
  sc_budget : nat;                    (* trajectories allowed *)
}.

Definition add_file (p : string) (w : world) : world :=
  {| files := p :: files w; accepted := accepted w; started := started w;
     draws := draws w |}.

Definition metrics : gmap string (pyval Z) :=
  {[ "plddt" := PFloat 80%Z; "helix_probability" := PFloat 25%Z ]}.

Definition scores : interface_scores_t Z :=
  {| binder_score := PInt 0; surface_hydrophobicity := PInt 0;
     interface_sc := PInt 0; interface_packstat := PInt 0;
     interface_dG := PInt (-15); interface_dSASA := PInt 0;
     interface_dG_SASA_ratio := PInt 0; interface_hb_bb_sc := PInt 0;
     interface_hb_sc_sc := PInt 0; interface_hb_bb_bb_longrange := PInt 0;
     interface_hb_bb_bb_shortrange := PInt 0 |}.

Definition ss : ss_percentage_t Z :=
  {| ss_alpha := PInt 0; ss_beta := PInt 0; ss_loops := PInt 0;
     ss_alpha_interface := PInt 0; ss_beta_interface := PInt 0;
     ss_loops_interface := PInt 0; ss_i_plddt := PInt 0; ss_ss_plddt := PInt 0 |}.

Definition trajectory (sc : scenario) : trajectory_t Z :=
  {| tmp_best_aux_log := Some metrics;
     aux_log := Some {[ "terminate" := PStr (sc_terminate sc) ]};
     get_seq_best := PStr "MKV" |}.

Definition collab (sc : scenario) : collaborators Z world := {|
  check_accepted_designs w := (bool_decide (sc_target sc ≤ accepted w), w);
  check_n_trajectories w := (bool_decide (sc_budget sc ≤ started w), w);
  time_time w := (0%Z, w);
  np_random_randint low high w :=
    ((low + Z.of_nat (draws w))%Z,
     {| files := files w; accepted := accepted w; started := started w;
        draws := S (draws w) |});
  np_random_choice samples w := (hd 0%Z samples, w);
  load_helicity w := (PInt 0, w);
  design_paths d := "out/" +:+ d;
  os_path_exists p w := bool_decide (p ∈ files w);
  binder_hallucination design_name length seed helicity_value w :=
    (trajectory sc,
     {| files := ("out/Trajectory/" +:+ design_name +:+ ".pdb") :: files w;
        accepted := accepted w; started := S (started w); draws := draws w |});
  pr_relax pdb relaxed w := add_file relaxed w;
  calculate_clash_score pdb w := (PInt 0, w);
  calc_ss_percentage pdb chain w := (ss, w);
  score_interface pdb chain w := ((scores, PNone, PStr "B1"), w);
  validate_design_sequence sequence clashes w := (PStr "", w);
  target_pdb_rmsd pdb w := (PInt 0, w);
  interface_pdb_rmsd trajectory_pdb relaxed chain w := (PInt 0, w);
  binder_pdb_rmsd relaxed monomer chain w := (PInt 0, w);
  add_row_to_csv t row w :=
    if bool_decide (t = final_csv) then
      {| files := files w; accepted := S (accepted w); started := started w;
         draws := draws w |}
    else w;
  mpnn_gen_sequence trajectory design_name w := (sc_candidates sc, w);
  predict_binder_complex sequence name w :=
    if sc_predicts sc sequence then
      ((metrics, Some ("out/MPNN/Complex/" +:+ name +:+ ".pdb")),
       add_file ("out/MPNN/Complex/" +:+ name +:+ ".pdb") w)
    else ((∅, None), w);
  predict_binder_alone sequence name w :=
    ((metrics, Some ("out/MPNN/Binder/" +:+ name +:+ ".pdb")),
     add_file ("out/MPNN/Binder/" +:+ name +:+ ".pdb") w);
  apply_initial_filters m w := (sc_initial sc, w);
  apply_final_filters row name w := (sc_final sc name, w);
  copy_file src dst w := add_file dst w;
  remove_file path w :=
    {| files := List.filter (λ p, negb (bool_decide (Some p = path))) (files w);
       accepted := accepted w; started := started w; draws := draws w |};
  float_sub := Z.sub;
  round2 x := x;
  time_text x := "0 hours, 0 minutes, 0 seconds";
|}.

Definition target : target_settings_t Z :=
  {| binder_name := "PDL1"; lengths := [60; 80]%Z;
     target_hotspot_residues := PStr "56" |}.

Definition advanced (stop : option bool) (cap : Z) : advanced_settings_t Z :=
  {| stop_after_mpnn_generation_key := stop;
     design_algorithm := PStr "4stage"; enable_mpnn := true;
     max_mpnn_sequences := cap; remove_unrelaxed_complex := false;
     remove_binder_monomer := true; remove_unrelaxed_trajectory := true |}.

Definition empty_world : world :=
  {| files := []; accepted := 0; started := 0; draws := 0 |}.

(** Two candidates; the trajectory is not terminated; predictions succeed. *)
Definition two_candidates (final : string → bool) : scenario :=
  {| sc_terminate := ""; sc_candidates := [("MKA", PFloat 1%Z); ("MKB", PFloat 2%Z)];
     sc_predicts := λ _, true; sc_initial := false; sc_final := final;
     sc_target := 1; sc_budget := 3 |}.

(** A trajectory that the hallucination ends early. *)
Definition terminated : scenario :=
  {| sc_terminate := "clashes"; sc_candidates := [("MKA", PFloat 1%Z)];
     sc_predicts := λ _, true; sc_initial := true; sc_final := λ _, true;
     sc_target := 1; sc_budget := 3 |}.

(** One candidate whose complex prediction fails, then one that succeeds. *)
Definition failed_prediction : scenario :=
  {| sc_terminate := ""; sc_candidates := [("MKA", PFloat 1%Z); ("MKB", PFloat 2%Z)];
     sc_predicts := λ s, bool_decide (s = "MKB"); sc_initial := true;
     sc_final := λ _, true; sc_target := 1; sc_budget := 3 |}.

(** The world after a crash that left a clashing trajectory behind. *)
Definition crashed_world : world :=
  add_file "out/Trajectory/Clashing/PDL1_l60_s0.pdb" empty_world.

End Demo.

(** ** The names printed at start-up (lines 38-40) *)

Fixpoint has_slash (p : string) : bool :=
  match p with
  | EmptyString => false
  | String c rest => Ascii.eqb c "/" || has_slash rest
  end.

(** [os.path.basename(p)] on POSIX: [p[p.rfind("/") + 1:]], what follows
    the last slash, all of [p] when it has none. *)
Fixpoint os_path_basename (p : string) : string :=
  match p with
  | EmptyString => EmptyString
  | String c rest => if has_slash p then os_path_basename rest else p
  end.

(** [s.split(".")[0]]: what precedes the first dot, all of [s] when it has
    none. *)
Fixpoint split_dot_first (s : string) : string :=
  match s with
  | EmptyString => EmptyString
  | String c rest =>
    if Ascii.eqb c "." then EmptyString else String c (split_dot_first rest)
  end.

(** Lines 38-40: [os.path.basename(path).split(".")[0]]. *)
Definition settings_name (path : string) : string :=
  split_dot_first (os_path_basename path).

(** The characters of a string. *)
Fixpoint chars (s : string) : list ascii :=
  match s with
  | EmptyString => []
  | String c rest => c :: chars rest
  end.

(** ** The messages of the redesign stage and of the missing metrics *)

(** Lines 192-195. *)
Definition generated_message (design_name : string) (generated : nat) : string :=
  match generated with
  | 0 => "MPNN did not generate any sequences for " +:+ design_name
  | _ => "MPNN generated " +:+ pretty generated +:+ " sequences for "
         +:+ design_name
  end.

(** Lines 201-212. *)
Definition stopping_message (design_name : string) (generated : nat) : string :=
  match generated with
  | 0 => "No MPNN sequences generated for " +:+ design_name
         +:+ ". Skipping revalidation/filtering (as stop_after_mpnn_generation is true)."
  | _ => "Stopping after MPNN generation for " +:+ design_name
         +:+ " as requested."
  end.

(** Line 130. *)
Definition missing_metrics_warning (design_name : string) : string :=
  "Warning: Could not retrieve metrics from trajectory for " +:+ design_name
  +:+ ". Skipping detailed metrics for this trajectory.".

(** ** More observations on traces *)

Section MoreObservations.

Context {F : Type}.

(** The arguments of the complex predictions, in order. *)
Fixpoint predicted_complexes (tr : list (event F)) : list (string * string) :=
  match tr with
  | [] => []
  | Ev_predict_binder_complex sequence name :: tr =>
    (sequence, name) :: predicted_complexes tr
  | _ :: tr => predicted_complexes tr
  end.

(** The arguments of the monomer predictions, in order. *)
Fixpoint predicted_monomers (tr : list (event F)) : list (string * string) :=
  match tr with
  | [] => []
  | Ev_predict_binder_alone sequence name :: tr =>
    (sequence, name) :: predicted_monomers tr
  | _ :: tr => predicted_monomers tr
  end.

(** The destinations of the copies, in order. *)
Fixpoint copy_destinations (tr : list (event F)) : list string :=
  match tr with
  | [] => []
  | Ev_copy_file _ dst :: tr => dst :: copy_destinations tr
  | _ :: tr => copy_destinations tr
  end.

(** The arguments of the hallucination calls, in order. *)
Fixpoint hallucinated (tr : list (event F))
    : list (string * Z * Z * pyval F) :=
  match tr with
  | [] => []
  | Ev_binder_hallucination design_name length seed helicity_value :: tr =>
    (design_name, length, seed, helicity_value) :: hallucinated tr
  | _ :: tr => hallucinated tr
  end.

Definition is_check_accepted (ev : event F) : bool :=
  match ev with Ev_check_accepted_designs => true | _ => false end.

Definition is_check_n_trajectories (ev : event F) : bool :=
  match ev with Ev_check_n_trajectories => true | _ => false end.

Definition is_redesign (ev : event F) : bool :=
  match ev with Ev_mpnn_gen_sequence _ => true | _ => false end.

Definition is_remove (ev : event F) : bool :=
  match ev with Ev_remove_file _ => true | _ => false end.

Definition is_file_op (ev : event F) : bool :=
  match ev with Ev_copy_file _ _ | Ev_remove_file _ => true | _ => false end.

(** The calls made only for a redesigned sequence. *)
Definition is_candidate_call (ev : event F) : bool :=
  match ev with
  | Ev_predict_binder_complex _ _ | Ev_predict_binder_alone _ _
  | Ev_apply_initial_filters _ | Ev_apply_final_filters _ _
  | Ev_interface_pdb_rmsd _ _ _ | Ev_binder_pdb_rmsd _ _ _
  | Ev_copy_file _ _ => true
  | Ev_add_row_to_csv t _ => bool_decide (t ≠ trajectory_csv)
  | _ => false
  end.

(** The sequence and the name under which each candidate from index [i]
    on is validated (line 230). *)
Fixpoint candidate_calls (design_name : string) (i : nat)
    (candidates : list (string * pyval F)) : list (string * string) :=
  match candidates with
  | [] => []
  | (mpnn_sequence, _) :: rest =>
    (mpnn_sequence, design_name +:+ "_mpnn_" +:+ pretty i)
    :: candidate_calls design_name (S i) rest
  end.

(** Lines 319-321. *)
Definition finish_events (design_name : string) : list (event F) :=
  [Ev_print ("Finished trajectory: " +:+ design_name);
   Ev_print "------------------------------------------------------------";
   Ev_print ""].

(** What happens between the hallucination of [design_name] and its
    redesign: printing, timing, relaxing and scoring the trajectory, and
    one row of 39 columns for the trajectory table, keyed by the design
    name, whose metric columns are read from [trajectory_metrics]. *)
Definition prelude_event (design_name : string)
    (trajectory_metrics : gmap string (pyval F)) (ev : event F) : Prop :=
  match ev with
  | Ev_print _ | Ev_time | Ev_pr_relax _ _ | Ev_calculate_clash_score _
  | Ev_calc_ss_percentage _ _ | Ev_score_interface _ _
  | Ev_validate_design_sequence _ _ | Ev_target_pdb_rmsd _ => True
  | Ev_add_row_to_csv t row =>
    t = trajectory_csv ∧ List.length row = 39
    ∧ row !! 0 = Some (PStr design_name)
    ∧ row !! 8 = Some (dict_get trajectory_metrics "plddt" PNone)
    ∧ row !! 9 = Some (dict_get trajectory_metrics "ptm" PNone)
    ∧ row !! 10 = Some (dict_get trajectory_metrics "i_ptm" PNone)
    ∧ row !! 11 = Some (dict_get trajectory_metrics "pae" PNone)
    ∧ row !! 12 = Some (dict_get trajectory_metrics "i_pae" PNone)
    ∧ row !! 35 = Some (dict_get trajectory_metrics "helix_probability" PNone)
    ∧ row !! 38 = Some (dict_get trajectory_metrics "terminate" PNone)
  | _ => False
  end.

(** How the settings limit what a run may do: the redesign needs
    [enable_mpnn]; validating a candidate or removing a file needs
    [enable_mpnn] without [stop_after_mpnn_generation]; removing a file
    needs one of the three clean-up flags. *)
Definition settings_event (advanced_settings : advanced_settings_t F)
    (ev : event F) : Prop :=
  (is_redesign ev = true → enable_mpnn advanced_settings = true)
  ∧ (is_candidate_call ev = true ∨ is_remove ev = true →
     enable_mpnn advanced_settings = true
     ∧ stop_after_mpnn_generation advanced_settings = false)
  ∧ (is_remove ev = true →
     remove_unrelaxed_complex advanced_settings = true
     ∨ remove_binder_monomer advanced_settings = true
     ∨ remove_unrelaxed_trajectory advanced_settings = true).

End MoreObservations.

(** What holds of the calls of a whole run, and of each of its parts: the
    settings are respected; a redesign follows a hallucination; each
    hallucination brings at most [max_mpnn_sequences] rows to the final
    table; each row of the final table is a row of the per-sequence table,
    in the same order; three files are copied per row of the final table,
    all of them into the accepted directory. *)
Definition run_invariant {F Env} (C : collaborators F Env)
    (advanced_settings : advanced_settings_t F) (tr : list (event F)) : Prop :=
  Forall (settings_event advanced_settings) tr
  ∧ count is_redesign tr ≤ count is_hallucination tr
  ∧ count (is_add_row final_csv) tr
    ≤ Z.to_nat (max_mpnn_sequences advanced_settings) * count is_hallucination tr
  ∧ rows_of final_csv tr `sublist_of` rows_of mpnn_csv tr
  ∧ count is_copy tr = 3 * count (is_add_row final_csv) tr
  ∧ Forall (λ dst, ∃ file,
              dst = os_path_join (design_paths C "MPNN/Accepted") file)
           (copy_destinations tr).


(** The same collaborators, with another hallucination. *)
Definition with_hallucination {F Env} (C : collaborators F Env)
    (hallucination : string → Z → Z → pyval F → Env → trajectory_t F * Env)
    : collaborators F Env :=
  {| check_accepted_designs := check_accepted_designs C;
     check_n_trajectories := check_n_trajectories C;
     time_time := time_time C;
     np_random_randint := np_random_randint C;
     np_random_choice := np_random_choice C;
     load_helicity := load_helicity C;
     design_paths := design_paths C;
     os_path_exists := os_path_exists C;
     binder_hallucination := hallucination;
     pr_relax := pr_relax C;
     calculate_clash_score := calculate_clash_score C;
     calc_ss_percentage := calc_ss_percentage C;
     score_interface := score_interface C;
     validate_design_sequence := validate_design_sequence C;
     target_pdb_rmsd := target_pdb_rmsd C;
     interface_pdb_rmsd := interface_pdb_rmsd C;
     binder_pdb_rmsd := binder_pdb_rmsd C;
     add_row_to_csv := add_row_to_csv C;
     mpnn_gen_sequence := mpnn_gen_sequence C;
     predict_binder_complex := predict_binder_complex C;
     predict_binder_alone := predict_binder_alone C;
     apply_initial_filters := apply_initial_filters C;
     apply_final_filters := apply_final_filters C;
     copy_file := copy_file C;
     remove_file := remove_file C;
     float_sub := float_sub C;
     round2 := round2 C;
     time_text := time_text C |}.

(** ** More concrete cases *)

Module Cases.

(** A trajectory whose log has no ["terminate"] key. *)
Definition no_terminate_key : trajectory_t Z :=
  {| tmp_best_aux_log := Some Demo.metrics; aux_log := Some ∅;
     get_seq_best := PStr "MKV" |}.

(** A trajectory without the log of a best iteration. *)
Definition no_metrics : trajectory_t Z :=
  {| tmp_best_aux_log := None; aux_log := Some {[ "terminate" := PStr "" ]};
     get_seq_best := PStr "MKV" |}.

(** The demo collaborators, the hallucination returning [trajectory]. *)
Definition collab (trajectory : trajectory_t Z)
    : collaborators Z Demo.world :=
  with_hallucination (Demo.collab (Demo.two_candidates (λ _, true)))
    (λ _ _ _ _ w, (trajectory, w)).

(** Settings that keep every file. *)
Definition keep_all : advanced_settings_t Z :=
  {| stop_after_mpnn_generation_key := None;
     design_algorithm := PStr "4stage"; enable_mpnn := true;
     max_mpnn_sequences := 2; remove_unrelaxed_complex := false;
     remove_binder_monomer := false; remove_unrelaxed_trajectory := false |}.

End Cases.
(** ** Lemmas on traces *)

Section ObservationLemmas.

Context {F : Type}.

Lemma count_app p (a b : list (event F)) :
  count p (a ++ b) = count p a + count p b.
Proof. unfold count. by rewrite List.filter_app, length_app. Qed.

Lemma count_cons p ev (tr : list (event F)) :
  count p (ev :: tr) = (if p ev then 1 else 0) + count p tr.
Proof. unfold count. simpl. by destruct (p ev). Qed.

Lemma count_nil p : count p ([] : list (event F)) = 0.
Proof. done. Qed.

Lemma rows_of_app t (a b : list (event F)) :
  rows_of t (a ++ b) = rows_of t a ++ rows_of t b.
Proof.
  induction a as [|ev a IH]; [done|].
  destruct ev; simpl; try done.
  case_bool_decide; simpl; by rewrite IH.
Qed.

Lemma rows_of_length t (tr : list (event F)) :
  List.length (rows_of t tr) = count (is_add_row t) tr.
Proof.
  induction tr as [|ev tr IH]; [done|].
  rewrite count_cons. destruct ev; simpl; try done.
  case_bool_decide; simpl; by rewrite IH.
Qed.

Lemma without_prints_app (a b : list (event F)) :
  without_prints (a ++ b) = without_prints a ++ without_prints b.
Proof. apply List.filter_app. Qed.

End ObservationLemmas.

(** ** The monad on traces *)

Section Monad.

Context {F Env : Type}.
Local Abbreviation M := (M F Env).

Lemma bind_unfold {A B} (m : M A) (f : A → M B) (e : Env) :
  (m ≫= f) e =
  (result (f (result (m e)) (env_after (m e))),
   env_after (f (result (m e)) (env_after (m e))),
   trace (m e) ++ trace (f (result (m e)) (env_after (m e)))).
Proof.
  unfold mbind, M_bind, result, env_after, trace.
  destruct (m e) as [[a e1] t1]; simpl.
  by destruct (f a e1) as [[b e2] t2].
Qed.

Lemma trace_bind {A B} (m : M A) (f : A → M B) (e : Env) :
  trace ((m ≫= f) e) = trace (m e) ++ trace (f (result (m e)) (env_after (m e))).
Proof. by rewrite bind_unfold. Qed.

Lemma result_bind {A B} (m : M A) (f : A → M B) (e : Env) :
  result ((m ≫= f) e) = result (f (result (m e)) (env_after (m e))).
Proof. by rewrite bind_unfold. Qed.

Lemma env_after_bind {A B} (m : M A) (f : A → M B) (e : Env) :
  env_after ((m ≫= f) e) = env_after (f (result (m e)) (env_after (m e))).
Proof. by rewrite bind_unfold. Qed.

Lemma trace_call {R} (ev : event F) (h : Env → R * Env) e : trace (call ev h e) = [ev].
Proof. unfold call, trace. by destruct (h e). Qed.

Lemma result_call {R} (ev : event F) (h : Env → R * Env) e : result (call ev h e) = (h e).1.
Proof. unfold call, result. by destruct (h e). Qed.

Lemma env_after_call {R} (ev : event F) (h : Env → R * Env) e :
  env_after (call ev h e) = (h e).2.
Proof. unfold call, env_after. by destruct (h e). Qed.

Lemma bind_call {R B} (ev : event F) (h : Env → R * Env) (f : R → M B) e :
  (call ev h ≫= f) e = emit [ev] (f (h e).1 (h e).2).
Proof.
  unfold mbind, M_bind, call, emit. destruct (h e) as [r e1]; simpl.
  by destruct (f r e1) as [[b e2] t2].
Qed.

Lemma bind_exec {B} (ev : event F) (h : Env → Env) (f : () → M B) e :
  (exec ev h ≫= f) e = emit [ev] (f () (h e)).
Proof.
  unfold mbind, M_bind, exec, emit. by destruct (f () (h e)) as [[b e2] t2].
Qed.

Lemma bind_print {B} msg (f : () → M B) e :
  (print msg ≫= f) e = emit [Ev_print msg] (f () e).
Proof.
  unfold mbind, M_bind, print, emit. by destruct (f () e) as [[b e2] t2].
Qed.

Lemma bind_probe {R B} (h : Env → R) (f : R → M B) e :
  (probe h ≫= f) e = f (h e) e.
Proof.
  unfold mbind, M_bind, probe. by destruct (f (h e) e) as [[b e2] t2].
Qed.

Lemma bind_ret {A B} (a : A) (f : A → M B) e : (mret a ≫= f) e = f a e.
Proof.
  unfold mbind, M_bind, mret, M_ret. by destruct (f a e) as [[b e2] t2].
Qed.

Lemma bind_assoc {A B D} (m : M A) (g : A → M B) (f : B → M D) e :
  ((m ≫= g) ≫= f) e = (m ≫= (λ a, g a ≫= f)) e.
Proof.
  unfold mbind, M_bind. destruct (m e) as [[a e1] t1].
  destruct (g a e1) as [[b e2] t2]. destruct (f b e2) as [[d e3] t3].
  by rewrite app_assoc.
Qed.

Lemma bind_emit {A B} (m : M A) (f : A → M B) e :
  (m ≫= f) e = emit (trace (m e)) (f (result (m e)) (env_after (m e))).
Proof. by rewrite bind_unfold. Qed.

Lemma call_alone {R} (ev : event F) (h : Env → R * Env) e :
  call ev h e = ((h e).1, (h e).2, [ev]).
Proof. unfold call. by destruct (h e). Qed.

Lemma trace_emit {A} tr (x : A * Env * list (event F)) :
  trace (emit tr x) = tr ++ trace x.
Proof. done. Qed.

Lemma result_emit {A} tr (x : A * Env * list (event F)) :
  result (emit tr x) = result x.
Proof. done. Qed.

Lemma env_after_emit {A} tr (x : A * Env * list (event F)) :
  env_after (emit tr x) = env_after x.
Proof. done. Qed.

Lemma emit_triple {A} tr (a : A) (e : Env) (t : list (event F)) :
  emit tr (a, e, t) = (a, e, tr ++ t).
Proof. done. Qed.

Lemma result_triple {A} (a : A) (e : Env) (t : list (event F)) :
  result (a, e, t) = a.
Proof. done. Qed.

Lemma env_after_triple {A} (a : A) (e : Env) (t : list (event F)) :
  env_after (a, e, t) = e.
Proof. done. Qed.

Lemma trace_triple {A} (a : A) (e : Env) (t : list (event F)) :
  trace (a, e, t) = t.
Proof. done. Qed.

Lemma emit_emit {A} tr1 tr2 (x : A * Env * list (event F)) :
  emit tr1 (emit tr2 x) = emit (tr1 ++ tr2) x.
Proof. unfold emit; simpl. by rewrite app_assoc. Qed.

Lemma ret_alone {A} (a : A) (e : Env) :
  (mret a : M A) e = (a, e, []).
Proof. done. Qed.

End Monad.


(** ** Properties of the script *)

(** Symbolic execution: run the first call of the script applied to an
    environment, naming what the handler answers. *)
Ltac case_on b :=
  lazymatch goal with
  | H : b = _ |- _ => rewrite H
  | _ => destruct b eqn:?
  end.
Ltac run_head :=
  rewrite ?bind_assoc;
  first
  [ match goal with
    | |- context [((if ?b then _ else _) ≫= _) _] => case_on b
    | |- context [(match ?x with Some _ => _ | None => _ end ≫= _) _] =>
      case_on x
    | |- context [(match ?x with [] => _ | _ :: _ => _ end ≫= _) _] =>
      case_on x
    | |- context [(if ?b then _ else _) _] => case_on b
    end
  | rewrite bind_ret
  | rewrite bind_print
  | rewrite bind_probe
  | rewrite bind_exec
  | match goal with
    | |- context [(call ?ev ?h ≫= ?f) ?e] =>
      rewrite (bind_call ev h f e);
      lazymatch goal with
      | H : h e = _ |- _ => rewrite H; cbn [fst snd]
      | _ =>
        let r := fresh "r" in
        let e' := fresh "e" in
        let H := fresh "Hcall" in
        destruct (h e) as [r e'] eqn:H; cbn [fst snd];
        repeat match goal with
               | |- context [match ?v with (_, _) => _ end] =>
                 is_var v; destruct v
               end
      end
    end ];
  cbv beta iota.
Ltac run_script := repeat run_head.
(** Run the script [t] once, whatever the number of times the goal
    mentions it. *)
Ltac focus_run t :=
  pattern t;
  match goal with |- ?Q _ => let Q' := fresh "Q" in set (Q' := Q) end.
Ltac unfocus_run :=
  match goal with Q := _ |- _ => subst Q; cbv beta end.
(** Read off the outcome once the script has been run to its end. *)
Ltac read_outcome :=
  rewrite ?ret_alone, ?call_alone; rewrite ?emit_emit, ?emit_triple;
  cbn [app].

Section Properties.

Context {F Env : Type}.
Context (C : collaborators F Env).
Context (target_settings : target_settings_t F).
Context (advanced_settings : advanced_settings_t F).

Local Abbreviation dict := (gmap string (pyval F)).

Lemma trajectory_exists_true design_name e :
  (∃ d, d ∈ trajectory_dirs ∧
        os_path_exists C
          (os_path_join (design_paths C d) (design_name +:+ ".pdb")) e = true) →
  trajectory_exists C design_name e = true.
Proof.
  intros (d & Hd & Hex). unfold trajectory_exists.
  apply existsb_exists. exists d. split; [|done].
  by apply list_elem_of_In.
Qed.

(** C1. When a file [design_name.pdb] exists in one of the four trajectory
    directories, the iteration for that name makes no call at all: it
    prints the two lines of the skip branch and leaves the environment and
    [trajectory_n] as they were.  In particular [binder_hallucination] is
    not invoked. *)
Theorem C1_existing_trajectory_is_skipped
    design_name length seed helicity_value start_time trajectory_n e :
  (∃ d, d ∈ trajectory_dirs ∧
        os_path_exists C
          (os_path_join (design_paths C d) (design_name +:+ ".pdb")) e = true) →
  let run := design_step C target_settings advanced_settings design_name length
               seed helicity_value start_time trajectory_n e in
  run = (trajectory_n, e,
         [Ev_print ("Trajectory " +:+ design_name +:+ " already exists, skipping");
          Ev_print ""])
  ∧ count is_hallucination (trace run) = 0.
Proof.
  intros Hex run. apply trajectory_exists_true in Hex.
  assert (Hrun : run = (trajectory_n, e,
    [Ev_print ("Trajectory " +:+ design_name +:+ " already exists, skipping");
     Ev_print ""])).
  { unfold run, design_step. rewrite bind_probe, Hex. cbn [negb].
    run_script. by read_outcome. }
  split; [done|]. by rewrite Hrun.
Qed.

(** C3. Every pass through the loop body calls [check_accepted_designs]
    first.  If it answers true the pass makes no other call, not even
    [check_n_trajectories], and the loop stops.  If it answers false the
    second call is [check_n_trajectories]; if that answers true the pass
    makes no further call and the loop stops.  Only when both answer false
    does the pass go on to sample a design. *)
Theorem C3_stop_conditions_in_order trajectory_n e fuel :
  let loop := design_loop C target_settings advanced_settings (S fuel) trajectory_n e in
  let body := loop_body C target_settings advanced_settings trajectory_n e in
  match check_accepted_designs C e with
  | (true, e1) =>
    body = (Break, trajectory_n, e1, [Ev_check_accepted_designs]) ∧
    loop = (Some trajectory_n, e1, [Ev_check_accepted_designs])
  | (false, e1) =>
    match check_n_trajectories C e1 with
    | (true, e2) =>
      body = (Break, trajectory_n, e2,
              [Ev_check_accepted_designs; Ev_check_n_trajectories]) ∧
      loop = (Some trajectory_n, e2,
              [Ev_check_accepted_designs; Ev_check_n_trajectories])
    | (false, e2) =>
      ∃ rest,
        trace body =
          Ev_check_accepted_designs :: Ev_check_n_trajectories :: Ev_time :: rest
        ∧ (result body).1 = Next
    end
  end.
Proof.
  intros loop body.
  assert (Hloop : loop =
    emit (trace body)
      (match (result body).1 with
       | Break => mret (Some (result body).2)
       | Next =>
         design_loop C target_settings advanced_settings fuel (result body).2
       end (env_after body))).
  { unfold loop, body. cbn [design_loop]. rewrite bind_emit.
    by destruct (result _) as [[] n]. }
  destruct (check_accepted_designs C e) as [[] e1] eqn:Hacc.
  - assert (Hbody : body = (Break, trajectory_n, e1, [Ev_check_accepted_designs])).
    { unfold body, loop_body. run_script. done. }
    split; [done|]. by rewrite Hloop, Hbody.
  - destruct (check_n_trajectories C e1) as [[] e2] eqn:Hmax.
    + assert (Hbody : body = (Break, trajectory_n, e2,
                [Ev_check_accepted_designs; Ev_check_n_trajectories])).
      { unfold body, loop_body. run_script. done. }
      split; [done|]. by rewrite Hloop, Hbody.
    + unfold body, loop_body. do 3 run_head.
      rewrite !trace_emit, !result_emit. simpl.
      eexists. split; [reflexivity|].
      run_script. rewrite !result_emit, bind_emit, result_emit. done.
Qed.


(** Outcome of one candidate: what it adds to [mpnn_passes] is the number
    of rows it appends to the final table, at most one; the complex is
    predicted once; three files are copied per accepted design. *)
Lemma validate_mpnn_design_accounting design_name trajectory_pdb length seed
    helicity_value (trajectory_metrics : dict) i candidate mpnn_passes e :
  let run := validate_mpnn_design C target_settings advanced_settings design_name
               trajectory_pdb length seed helicity_value trajectory_metrics i
               candidate mpnn_passes e in
  result run = (mpnn_passes + Z.of_nat (count (is_add_row final_csv) (trace run)))%Z
  ∧ count (is_add_row final_csv) (trace run) ≤ 1
  ∧ count (is_add_row final_csv) (trace run) ≤ count (is_add_row mpnn_csv) (trace run)
  ∧ count is_complex_prediction (trace run) = 1
  ∧ count is_copy (trace run) = 3 * count (is_add_row final_csv) (trace run)
  ∧ Forall (sub_loop_event trajectory_metrics) (trace run).
Proof.
  intros run. destruct candidate as [mpnn_sequence mpnn_score].
  focus_run run. unfold run.
  unfold validate_mpnn_design, validate_predicted, relax_and_score,
    record_and_filter, when.
  run_script; read_outcome; unfocus_run; unfold result, trace, count; simpl.
  all: split_and!; try lia.
  all: repeat (apply Forall_cons; split; [by simpl|]); apply Forall_nil_2.
Qed.


Lemma mpnn_loop_cap_reached design_name trajectory_pdb length seed
    helicity_value (trajectory_metrics : dict) candidates i mpnn_count
    mpnn_passes e :
  (max_mpnn_sequences advanced_settings ≤ mpnn_passes)%Z →
  mpnn_loop C target_settings advanced_settings design_name trajectory_pdb
    length seed helicity_value trajectory_metrics candidates i mpnn_count
    mpnn_passes e
  = (mpnn_count, mpnn_passes, e, []).
Proof.
  intros Hcap. destruct candidates; [reflexivity|]. cbn [mpnn_loop].
  rewrite bool_decide_eq_true_2 by exact Hcap. reflexivity.
Qed.

Lemma mpnn_loop_step design_name trajectory_pdb length seed helicity_value
    (trajectory_metrics : dict) candidate rest i mpnn_count mpnn_passes e :
  ¬ (max_mpnn_sequences advanced_settings ≤ mpnn_passes)%Z →
  let first := validate_mpnn_design C target_settings advanced_settings
                 design_name trajectory_pdb length seed helicity_value
                 trajectory_metrics i candidate mpnn_passes e in
  mpnn_loop C target_settings advanced_settings design_name trajectory_pdb
    length seed helicity_value trajectory_metrics (candidate :: rest) i
    mpnn_count mpnn_passes e
  = emit (trace first)
      (mpnn_loop C target_settings advanced_settings design_name trajectory_pdb
         length seed helicity_value trajectory_metrics rest (S i)
         (mpnn_count + 1)%Z (result first) (env_after first)).
Proof.
  intros Hcap first. cbn [mpnn_loop].
  rewrite bool_decide_eq_false_2 by done. apply bind_emit.
Qed.

(** The sub-loop as a whole: [mpnn_passes] grows by the number of rows
    appended to the final table and never passes the cap it started below. *)
Lemma mpnn_loop_accounting design_name trajectory_pdb length seed
    helicity_value (trajectory_metrics : dict) candidates i mpnn_count
    mpnn_passes e :
  let run := mpnn_loop C target_settings advanced_settings design_name
               trajectory_pdb length seed helicity_value trajectory_metrics
               candidates i mpnn_count mpnn_passes e in
  (result run).2 =
    (mpnn_passes + Z.of_nat (count (is_add_row final_csv) (trace run)))%Z
  ∧ ((mpnn_passes ≤ max_mpnn_sequences advanced_settings)%Z →
     ((result run).2 ≤ max_mpnn_sequences advanced_settings)%Z)
  ∧ count (is_add_row final_csv) (trace run)
    ≤ count (is_add_row mpnn_csv) (trace run)
  ∧ count is_complex_prediction (trace run) ≤ List.length candidates
  ∧ count is_copy (trace run) = 3 * count (is_add_row final_csv) (trace run)
  ∧ Forall (sub_loop_event trajectory_metrics) (trace run).
Proof.
  revert i mpnn_count mpnn_passes e.
  induction candidates as [|candidate rest IH]; intros i mpnn_count mpnn_passes e.
  { intros run. unfold run. cbn [mpnn_loop]. rewrite ret_alone.
    unfold result, trace, count. simpl. split_and!; try done; lia. }
  destruct (decide (max_mpnn_sequences advanced_settings ≤ mpnn_passes)%Z)
    as [Hcap|Hcap].
  { intros run. unfold run. rewrite mpnn_loop_cap_reached by done.
    unfold result, trace, count. simpl. split_and!; try done; lia. }
  intros run. unfold run. rewrite mpnn_loop_step by done.
  set (first := validate_mpnn_design _ _ _ _ _ _ _ _ _ _ _ _ _).
  destruct (validate_mpnn_design_accounting design_name trajectory_pdb length
              seed helicity_value trajectory_metrics i candidate mpnn_passes e)
    as (Hres & Hone & Hrows & Hpred & Hcopy & Hev).
  fold first in Hres, Hone, Hrows, Hpred, Hcopy, Hev.
  destruct (IH (S i) (mpnn_count + 1)%Z (result first) (env_after first))
    as (IHres & IHcap & IHrows & IHpred & IHcopy & IHev).
  rewrite result_emit, trace_emit, !count_app.
  split_and!; [lia| |lia|simpl; lia|lia|by apply Forall_app].
  intros Hle. destruct (decide (max_mpnn_sequences advanced_settings ≤ result first)%Z)
    as [Hcap'|Hcap'].
  - rewrite mpnn_loop_cap_reached by done. simpl. lia.
  - apply IHcap. lia.
Qed.

Lemma sub_loop_no_trajectory_row (trajectory_metrics : dict) tr :
  Forall (sub_loop_event trajectory_metrics) tr →
  count (is_add_row trajectory_csv) tr = 0 ∧ count is_hallucination tr = 0.
Proof.
  induction 1 as [|ev tr Hev _ [IH1 IH2]]; [done|].
  rewrite !count_cons, IH1, IH2.
  destruct ev; simpl in *; try done.
  destruct Hev as [Hne _]. by rewrite bool_decide_eq_false_2.
Qed.

Lemma sub_loop_helix_probability (trajectory_metrics : dict) tr :
  Forall (sub_loop_event trajectory_metrics) tr →
  Forall (λ row : list (pyval F),
            List.length row = 43 ∧
            row !! 42 = Some (dict_get trajectory_metrics "helix_probability" PNone))
         (rows_of mpnn_csv tr).
Proof.
  induction 1 as [|ev tr Hev _ IH]; [constructor|].
  destruct ev; simpl in *; try done.
  case_bool_decide; [|done]. constructor; [by destruct Hev|done].
Qed.

(** C2 (as amended).  The cap bounds what is accepted, not what is
    validated: starting from [mpnn_passes = 0], at most
    [max_mpnn_sequences] rows are appended to the final table, and
    [mpnn_passes] ends as the number of those rows; every candidate may be
    validated (at most one complex prediction per candidate); and once
    [mpnn_passes] has reached the cap the loop makes no call for the
    remaining candidates. *)
Theorem C2_cap_bounds_accepted_designs design_name trajectory_pdb length seed
    helicity_value (trajectory_metrics : dict) candidates e :
  let run := mpnn_loop C target_settings advanced_settings design_name
               trajectory_pdb length seed helicity_value trajectory_metrics
               candidates 0 1%Z 0%Z e in
  count (is_add_row final_csv) (trace run)
    ≤ Z.to_nat (max_mpnn_sequences advanced_settings)
  ∧ (result run).2 = Z.of_nat (count (is_add_row final_csv) (trace run))
  ∧ count is_complex_prediction (trace run) ≤ List.length candidates
  ∧ ∀ rest i mpnn_count mpnn_passes e',
      (max_mpnn_sequences advanced_settings ≤ mpnn_passes)%Z →
      mpnn_loop C target_settings advanced_settings design_name trajectory_pdb
        length seed helicity_value trajectory_metrics rest i mpnn_count
        mpnn_passes e'
      = (mpnn_count, mpnn_passes, e', []).
Proof.
  intros run.
  destruct (mpnn_loop_accounting design_name trajectory_pdb length seed
              helicity_value trajectory_metrics candidates 0 1%Z 0%Z e)
    as (Hres & Hcap & _ & Hpred & _).
  fold run in Hres, Hcap, Hpred.
  split_and!; [|lia|done|].
  - destruct (decide (0 ≤ max_mpnn_sequences advanced_settings)%Z) as [Hpos|Hneg].
    + specialize (Hcap Hpos). clearbody run. lia.
    + unfold run. rewrite mpnn_loop_cap_reached by lia.
      unfold trace, count. simpl. lia.
  - intros. by apply mpnn_loop_cap_reached.
Qed.


Ltac solve_Forall :=
  repeat first
    [ apply Forall_nil_2
    | assumption
    | apply Forall_app; split
    | apply Forall_cons; split; [by simpl|] ].

(** The redesign stage ends the trajectory: [trajectory_n] grows by one on
    every path through it. *)
Lemma mpnn_stage_outcome trajectory design_name trajectory_pdb length seed
    helicity_value (trajectory_metrics : dict) trajectory_n e :
  let run := mpnn_stage C target_settings advanced_settings trajectory
               design_name trajectory_pdb length seed helicity_value
               trajectory_metrics trajectory_n e in
  result run = (trajectory_n + 1)%Z
  ∧ Forall (sub_loop_event trajectory_metrics) (trace run).
Proof.
  intros run. focus_run run. unfold run, mpnn_stage, finish_trajectory, when.
  run_script.
  all: try (rewrite bind_emit; run_script).
  all: read_outcome; unfocus_run; (split; [done|]).
  all: unfold trace at 1; cbn [snd].
  all: solve_Forall; apply mpnn_loop_accounting.
Qed.


(** A trajectory that is run: the hallucination is called once, the
    trajectory table gets one row exactly when there is no termination
    signal, [trajectory_n] grows by one, and every per-sequence row carries
    the helix probability of the trajectory's own (rounded) metrics. *)
Lemma run_trajectory_outcome design_name length seed helicity_value start_time
    trajectory_n e :
  let trajectory :=
    (binder_hallucination C design_name length seed helicity_value e).1 in
  let trajectory_metrics : dict :=
    round_metrics C (default ∅ (tmp_best_aux_log trajectory)) in
  let run := run_trajectory C target_settings advanced_settings design_name
               length seed helicity_value start_time trajectory_n e in
  result run = (trajectory_n + 1)%Z
  ∧ count is_hallucination (trace run) = 1
  ∧ count (is_add_row trajectory_csv) (trace run)
    = (if no_termination_signal trajectory then 1 else 0)
  ∧ Forall (λ row : list (pyval F),
              List.length row = 43 ∧
              row !! 42
              = Some (dict_get trajectory_metrics "helix_probability" PNone))
           (rows_of mpnn_csv (trace run)).
Proof.
  cbv zeta.
  destruct (binder_hallucination C design_name length seed helicity_value e)
    as [trajectory e1] eqn:Hh.
  cbn [fst].
  destruct (tmp_best_aux_log trajectory) as [log|] eqn:Hlog;
    destruct (no_termination_signal trajectory) eqn:Hterm;
    cbn [default].
  all: match goal with
       | |- context [run_trajectory C ?ts ?adv ?dn ?len ?sd ?hv ?st ?n ?e'] =>
         focus_run (run_trajectory C ts adv dn len sd hv st n e')
       end.
  all: unfold run_trajectory, get_trajectory_metrics, score_trajectory.
  all: run_script; read_outcome; unfocus_run.
  all: try (unfold result, trace, count; simpl; split_and!; [done..|constructor]).
  all: match goal with
       | |- context [mpnn_stage C ?ts ?adv ?t ?dn ?pdb ?len ?sd ?hv ?tm ?n ?e'] =>
         destruct (mpnn_stage_outcome t dn pdb len sd hv tm n e') as [Hres Hev];
         set (stage := mpnn_stage C ts adv t dn pdb len sd hv tm n e') in *
       end.
  all: clearbody stage.
  all: apply sub_loop_no_trajectory_row in Hev as Hcount.
  all: destruct Hcount as [Hrow Hhal].
  all: apply sub_loop_helix_probability in Hev.
  all: rewrite result_emit, trace_emit, !count_app, rows_of_app, Hrow, Hhal.
  all: unfold count; simpl; split_and!; done.
Qed.


(** C4 (as amended).  For a trajectory that is run (the hallucination is
    called, once), the trajectory table gets exactly one row when the
    trajectory carries no termination signal, and no row when it carries
    one. *)
Theorem C4_trajectory_row_unless_terminated design_name length seed
    helicity_value start_time trajectory_n e :
  let trajectory :=
    (binder_hallucination C design_name length seed helicity_value e).1 in
  let run := run_trajectory C target_settings advanced_settings design_name
               length seed helicity_value start_time trajectory_n e in
  count is_hallucination (trace run) = 1
  ∧ List.length (rows_of trajectory_csv (trace run))
    = (if no_termination_signal trajectory then 1 else 0).
Proof.
  intros trajectory run. rewrite rows_of_length.
  destruct (run_trajectory_outcome design_name length seed helicity_value
              start_time trajectory_n e) as (_ & Hhal & Hrow & _).
  done.
Qed.

(** C8 (as amended).  An iteration that runs its trajectory, whether the
    trajectory is terminated, stopped after the redesign or completed,
    leaves [trajectory_n] one higher; an iteration that skips an existing
    trajectory leaves [trajectory_n] unchanged. *)
Theorem C8_trajectory_counter design_name length seed helicity_value start_time
    trajectory_n e :
  result (design_step C target_settings advanced_settings design_name length
            seed helicity_value start_time trajectory_n e)
  = if trajectory_exists C design_name e then trajectory_n
    else (trajectory_n + 1)%Z.
Proof.
  unfold design_step. rewrite bind_probe.
  destruct (trajectory_exists C design_name e); cbn [negb].
  - run_script. by read_outcome.
  - apply run_trajectory_outcome.
Qed.

(** C10. Every row that the run of a trajectory appends to the
    per-sequence table has, in its last column (index 42 of 43), the
    [helix_probability] entry of the metrics of the trajectory returned by
    the hallucination, rounded, or [None] when there is no such entry.
    The value is the same for all the candidates of the trajectory and
    does not depend on what the complex prediction returns. *)
Theorem C10_helix_probability_from_trajectory design_name length seed
    helicity_value start_time trajectory_n e :
  let trajectory :=
    (binder_hallucination C design_name length seed helicity_value e).1 in
  let trajectory_metrics : dict :=
    round_metrics C (default ∅ (tmp_best_aux_log trajectory)) in
  let run := run_trajectory C target_settings advanced_settings design_name
               length seed helicity_value start_time trajectory_n e in
  Forall (λ row : list (pyval F),
            List.length row = 43 ∧
            row !! 42
            = Some (dict_get trajectory_metrics "helix_probability" PNone))
         (rows_of mpnn_csv (trace run)).
Proof.
  intros trajectory trajectory_metrics run.
  apply run_trajectory_outcome.
Qed.

(** C7. When the complex prediction returns no structure, the candidate is
    skipped: after the two predictions only the failure is printed, no row
    is appended and no file copied, [mpnn_passes] is unchanged, and the
    loop goes on with the remaining candidates. *)
Theorem C7_failed_prediction_is_skipped design_name trajectory_pdb length seed
    helicity_value (trajectory_metrics : dict) i mpnn_sequence mpnn_score rest
    mpnn_count mpnn_passes e :
  let mpnn_design_name := design_name +:+ "_mpnn_" +:+ pretty i in
  let predicted :=
    predict_binder_complex C mpnn_sequence mpnn_design_name e in
  let e' := (predict_binder_alone C mpnn_sequence mpnn_design_name predicted.2).2 in
  let skipped :=
    [Ev_print ("Starting design validation for " +:+ mpnn_design_name);
     Ev_predict_binder_complex mpnn_sequence mpnn_design_name;
     Ev_predict_binder_alone mpnn_sequence mpnn_design_name;
     Ev_print ("MPNN design prediction failed for: " +:+ mpnn_design_name);
     Ev_print ""] in
  predicted.1.2 = None →
  validate_mpnn_design C target_settings advanced_settings design_name
    trajectory_pdb length seed helicity_value trajectory_metrics i
    (mpnn_sequence, mpnn_score) mpnn_passes e
  = (mpnn_passes, e', skipped)
  ∧ (¬ (max_mpnn_sequences advanced_settings ≤ mpnn_passes)%Z →
     mpnn_loop C target_settings advanced_settings design_name trajectory_pdb
       length seed helicity_value trajectory_metrics
       ((mpnn_sequence, mpnn_score) :: rest) i mpnn_count mpnn_passes e
     = emit skipped
         (mpnn_loop C target_settings advanced_settings design_name
            trajectory_pdb length seed helicity_value trajectory_metrics rest
            (S i) (mpnn_count + 1)%Z mpnn_passes e')).
Proof.
  intros mpnn_design_name predicted e' skipped Hnone.
  assert (Hskip :
    validate_mpnn_design C target_settings advanced_settings design_name
      trajectory_pdb length seed helicity_value trajectory_metrics i
      (mpnn_sequence, mpnn_score) mpnn_passes e
    = (mpnn_passes, e', skipped)).
  { unfold e', skipped, predicted, mpnn_design_name in *.
    unfold validate_mpnn_design.
    destruct (predict_binder_complex C mpnn_sequence _ e)
      as [[metrics pdb] e1] eqn:Hcomplex.
    cbn [fst snd] in *. subst pdb.
    destruct (predict_binder_alone C mpnn_sequence _ e1)
      as [[monomer_metrics monomer_pdb] e2] eqn:Hmono.
    run_script. by read_outcome. }
  split; [done|]. intros Hcap.
  rewrite mpnn_loop_step by done. cbv zeta. by rewrite Hskip.
Qed.

(** C9. The flag [stop_after_mpnn_generation] is false when the key is
    absent.  When it is true, the redesign stage validates nothing: none
    of the prediction, relaxation, scoring or filter calls is made, no row
    is appended to the per-sequence or final table and no file is copied;
    after the redesign call the stage only prints, and [trajectory_n]
    moves on to the next trajectory. *)
Theorem C9_stop_after_mpnn_generation trajectory design_name trajectory_pdb
    length seed helicity_value (trajectory_metrics : dict) trajectory_n e :
  let run := mpnn_stage C target_settings advanced_settings trajectory
               design_name trajectory_pdb length seed helicity_value
               trajectory_metrics trajectory_n e in
  (stop_after_mpnn_generation_key advanced_settings = None →
   stop_after_mpnn_generation advanced_settings = false)
  ∧ (stop_after_mpnn_generation advanced_settings = true →
     count is_validation (trace run) = 0
     ∧ result run = (trajectory_n + 1)%Z
     ∧ (enable_mpnn advanced_settings = true →
        env_after run = (mpnn_gen_sequence C trajectory design_name e).2
        ∧ ∃ msg1 msg2,
            trace run =
              [Ev_mpnn_gen_sequence design_name; Ev_print msg1; Ev_print msg2])).
Proof.
  intros run. split.
  { unfold stop_after_mpnn_generation. by intros ->. }
  intros Hstop.
  destruct (mpnn_gen_sequence C trajectory design_name e)
    as [mpnn_sequences e1] eqn:Hgen.
  focus_run run. unfold run, mpnn_stage, finish_trajectory, when.
  destruct (enable_mpnn advanced_settings) eqn:Henable.
  all: run_script; read_outcome; unfocus_run.
  all: unfold result, env_after, trace, count; simpl.
  all: split_and!; try done.
  all: intros _; split; [done|]; by do 2 eexists.
Qed.

(** C6. The per-sequence record is appended to the per-sequence table
    whatever the final filters answer.  If they pass, exactly three files
    are copied into the accepted directory (the unrelaxed complex, the
    relaxed complex and the monomer), the same record is appended to the
    final table and [mpnn_passes] grows by one.  If they fail, nothing is
    copied, the final table gets no row and [mpnn_passes] is unchanged. *)
Theorem C6_final_filter_gates_acceptance
    row name file complex_path relaxed_path monomer_pdb mpnn_passes e :
  let run := record_and_filter C advanced_settings row name file complex_path
               relaxed_path monomer_pdb mpnn_passes e in
  let accepted := design_paths C "MPNN/Accepted" in
  rows_of mpnn_csv (trace run) = [row] ∧
  if (apply_final_filters C row name (add_row_to_csv C mpnn_csv row e)).1
  then
    List.filter is_copy (trace run) =
      [Ev_copy_file (Some complex_path) (os_path_join accepted file);
       Ev_copy_file (Some relaxed_path)
         (os_path_join accepted (name +:+ "_relaxed.pdb"));
       Ev_copy_file monomer_pdb
         (os_path_join accepted (name +:+ "_monomer.pdb"))]
    ∧ rows_of final_csv (trace run) = [row]
    ∧ result run = (mpnn_passes + 1)%Z
  else
    List.filter is_copy (trace run) = []
    ∧ rows_of final_csv (trace run) = []
    ∧ result run = mpnn_passes.
Proof.
  intros run accepted. unfold accepted.
  destruct (apply_final_filters C row name (add_row_to_csv C mpnn_csv row e))
    as [passed e1] eqn:Hfinal.
  focus_run run. unfold run, record_and_filter, when.
  run_script; read_outcome; unfocus_run.
  all: unfold result, trace; cbn [fst snd]; simpl.
  all: try discriminate.
  all: done.
Qed.


(** What follows the initial filters does not depend on their answer. *)
Lemma validate_predicted_other_filters
    (filters : dict → Env → bool * Env) trajectory_pdb mpnn_design_name
    mpnn_pdb_filename mpnn_complex_path length seed helicity_value mpnn_sequence
    mpnn_score (mpnn_complex_metrics mpnn_monomer_metrics : dict)
    mpnn_monomer_pdb (trajectory_metrics : dict) mpnn_passes e :
  (∀ m e, (filters m e).2 = (apply_initial_filters C m e).2) →
  let run := validate_predicted C target_settings advanced_settings
               trajectory_pdb mpnn_design_name mpnn_pdb_filename
               mpnn_complex_path length seed helicity_value mpnn_sequence
               mpnn_score mpnn_complex_metrics mpnn_monomer_metrics
               mpnn_monomer_pdb trajectory_metrics mpnn_passes e in
  let run' := validate_predicted (with_initial_filters C filters)
                target_settings advanced_settings
                trajectory_pdb mpnn_design_name mpnn_pdb_filename
                mpnn_complex_path length seed helicity_value mpnn_sequence
                mpnn_score mpnn_complex_metrics mpnn_monomer_metrics
                mpnn_monomer_pdb trajectory_metrics mpnn_passes e in
  result run' = result run
  ∧ env_after run' = env_after run
  ∧ without_prints (trace run') = without_prints (trace run).
Proof.
  intros Hsame run run'. unfold run, run', validate_predicted.
  cbn [apply_initial_filters with_initial_filters].
  rewrite !bind_call, Hsame, !bind_print.
  rewrite !result_emit, !env_after_emit, !trace_emit, !without_prints_app.
  split_and!; [reflexivity|reflexivity|do 2 f_equal; reflexivity].
Qed.

(** A predicted complex is relaxed, scored and recorded. *)
Lemma validate_predicted_records trajectory_pdb mpnn_design_name
    mpnn_pdb_filename mpnn_complex_path length seed helicity_value mpnn_sequence
    mpnn_score (mpnn_complex_metrics mpnn_monomer_metrics : dict)
    mpnn_monomer_pdb (trajectory_metrics : dict) mpnn_passes e :
  let run := validate_predicted C target_settings advanced_settings
               trajectory_pdb mpnn_design_name mpnn_pdb_filename
               mpnn_complex_path length seed helicity_value mpnn_sequence
               mpnn_score mpnn_complex_metrics mpnn_monomer_metrics
               mpnn_monomer_pdb trajectory_metrics mpnn_passes e in
  count is_relax_or_score (trace run) = 9
  ∧ count (is_add_row mpnn_csv) (trace run) = 1.
Proof.
  intros run. focus_run run.
  unfold run, validate_predicted, relax_and_score, record_and_filter, when.
  run_script; read_outcome; unfocus_run.
  all: unfold trace, count; simpl; done.
Qed.

(** C5. The answer of the initial filters reaches nothing but the line
    that prints it.  With other initial filters (any answers, the same
    effect on the environment) the validation of a candidate returns the
    same [mpnn_passes], leaves the same environment and makes the same
    calls with the same arguments; only what is printed may differ.  And
    whatever the initial filters answer, a candidate whose complex
    prediction returned a structure is relaxed, scored and recorded in the
    per-sequence table. *)
Theorem C5_initial_filter_is_informational
    (filters : dict → Env → bool * Env) design_name trajectory_pdb length seed
    helicity_value (trajectory_metrics : dict) i mpnn_sequence mpnn_score
    mpnn_passes e :
  let mpnn_design_name := design_name +:+ "_mpnn_" +:+ pretty i in
  let run := validate_mpnn_design C target_settings advanced_settings
               design_name trajectory_pdb length seed helicity_value
               trajectory_metrics i (mpnn_sequence, mpnn_score) mpnn_passes e in
  let run' := validate_mpnn_design (with_initial_filters C filters)
                target_settings advanced_settings
                design_name trajectory_pdb length seed helicity_value
                trajectory_metrics i (mpnn_sequence, mpnn_score) mpnn_passes e in
  (∀ m e, (filters m e).2 = (apply_initial_filters C m e).2) →
  (result run' = result run
   ∧ env_after run' = env_after run
   ∧ without_prints (trace run') = without_prints (trace run))
  ∧ ((predict_binder_complex C mpnn_sequence mpnn_design_name e).1.2 ≠ None →
     count is_relax_or_score (trace run) = 9
     ∧ count (is_add_row mpnn_csv) (trace run) = 1).
Proof.
  intros mpnn_design_name run run' Hsame.
  unfold run, run', mpnn_design_name, validate_mpnn_design.
  cbn [predict_binder_complex predict_binder_alone design_paths
       with_initial_filters].
  destruct (predict_binder_complex C mpnn_sequence
              (design_name +:+ "_mpnn_" +:+ pretty i) e)
    as [[metrics pdb] e1] eqn:Hcomplex.
  destruct (predict_binder_alone C mpnn_sequence
              (design_name +:+ "_mpnn_" +:+ pretty i) e1)
    as [[monomer_metrics monomer_pdb] e2] eqn:Hmono.
  cbn [fst snd]. run_script.
  2: { read_outcome. by split_and!. }
  rewrite !(bind_emit (validate_predicted _ _ _ _ _ _ _ _ _ _ _ _ _ _ _ _ _)).
  run_script. read_outcome.
  match goal with
  | |- context [validate_predicted C ?ts ?adv ?a1 ?a2 ?a3 ?a4 ?a5 ?a6 ?a7 ?a8
                  ?a9 ?a10 ?a11 ?a12 ?a13 ?a14 ?e'] =>
    pose proof (validate_predicted_other_filters filters a1 a2 a3 a4 a5 a6 a7
                  a8 a9 a10 a11 a12 a13 a14 e' Hsame) as Hother;
    pose proof (validate_predicted_records a1 a2 a3 a4 a5 a6 a7 a8
                  a9 a10 a11 a12 a13 a14 e') as Hrecords;
    cbv zeta in Hother, Hrecords;
    set (vp := validate_predicted C ts adv a1 a2 a3 a4 a5 a6 a7 a8 a9 a10 a11
                 a12 a13 a14 e') in *;
    set (vp' := validate_predicted (with_initial_filters C filters) ts adv a1
                  a2 a3 a4 a5 a6 a7 a8 a9 a10 a11 a12 a13 a14 e') in *
  end.
  clearbody vp vp'.
  destruct Hother as (Hres & Henv & Htrace). destruct Hrecords as (Hscore & Hrow).
  rewrite !result_triple, !env_after_triple, !trace_triple, Hres, Henv.
  unfold without_prints, count in *. simpl.
  rewrite !List.filter_app, !length_app, Htrace, Hscore, Hrow.
  by split_and!.
Qed.

End Properties.

(** ** Concrete runs *)

Section Runs.

Import Demo.

Example make_design_name_60_42 :
  make_design_name target 60 42 = "PDL1_l60_s42".
Proof. reflexivity. Qed.

Example os_path_join_relative :
  os_path_join "out/Trajectory" "PDL1_l60_s42.pdb"
  = "out/Trajectory/PDL1_l60_s42.pdb".
Proof. reflexivity. Qed.

Example np_arange_lengths : np_arange 60 (62 + 1) = [60; 61; 62]%Z.
Proof. reflexivity. Qed.

Example no_termination_signal_unknown :
  no_termination_signal
    ({| tmp_best_aux_log := None; aux_log := Some ∅; get_seq_best := PNone |}
       : trajectory_t Z) = false.
Proof. reflexivity. Qed.

(** The design loop on the empty world, two candidates per trajectory, the
    first of which passes the final filters: one trajectory is enough. *)
Example design_loop_reaches_quota :
  let run := design_loop (collab (two_candidates (λ _, true))) target
               (advanced None 1) 5 1%Z empty_world in
  result run = Some 2%Z
  ∧ accepted (env_after run) = 1
  ∧ count is_hallucination (trace run) = 1
  ∧ count is_complex_prediction (trace run) = 1.
Proof. by vm_compute. Qed.

(** The same loop when no candidate passes the final filters: it stops on
    the trajectory budget, after three trajectories and six validations. *)
Example design_loop_exhausts_budget :
  let run := design_loop (collab (two_candidates (λ _, false))) target
               (advanced None 1) 5 1%Z empty_world in
  result run = Some 4%Z
  ∧ accepted (env_after run) = 0
  ∧ started (env_after run) = 3
  ∧ count is_complex_prediction (trace run) = 6
  ∧ List.length (rows_of final_csv (trace run)) = 0.
Proof. by vm_compute. Qed.

(** C1, on the crashed world: the clashing trajectory is not run again. *)
Lemma C1_witness :
  (∃ d, d ∈ trajectory_dirs ∧
        os_path_exists (collab terminated)
          (os_path_join (design_paths (collab terminated) d)
             ("PDL1_l60_s0" +:+ ".pdb")) crashed_world = true)
  ∧ design_step (collab terminated) target (advanced None 1) "PDL1_l60_s0"
      60 0 (PInt 0) 0%Z 1%Z crashed_world
    = (1%Z, crashed_world,
       [Ev_print "Trajectory PDL1_l60_s0 already exists, skipping";
        Ev_print ""]).
Proof.
  assert (Hex : ∃ d, d ∈ trajectory_dirs ∧
        os_path_exists (collab terminated)
          (os_path_join (design_paths (collab terminated) d)
             ("PDL1_l60_s0" +:+ ".pdb")) crashed_world = true).
  { exists "Trajectory/Clashing". split; [|reflexivity].
    apply list_elem_of_In. simpl. tauto. }
  split; [exact Hex|].
  exact (proj1 (C1_existing_trajectory_is_skipped (collab terminated) target
                  (advanced None 1) "PDL1_l60_s0" 60 0 (PInt 0) 0%Z 1%Z
                  crashed_world Hex)).
Defined.

(** C2 as stated fails: with two candidates and a cap of one, both
    candidates are predicted, relaxed and scored when the first fails the
    final filters. *)
Lemma C2_counterexample :
  let candidates := sc_candidates (two_candidates (λ _, false)) in
  let run := mpnn_loop (collab (two_candidates (λ _, false))) target
               (advanced None 1) "PDL1_l60_s0" "out/Trajectory/PDL1_l60_s0.pdb"
               60 0 (PInt 0) metrics candidates 0 1%Z 0%Z empty_world in
  (max_mpnn_sequences (advanced None 1) ≤ Z.of_nat (List.length candidates))%Z
  ∧ count is_complex_prediction (trace run) = 2
  ∧ count is_relax_or_score (trace run) = 18
  ∧ ¬ (Z.of_nat (count is_complex_prediction (trace run))
       ≤ max_mpnn_sequences (advanced None 1))%Z.
Proof. vm_compute. split_and!; [discriminate|done|done|]. intros H. by apply H. Qed.

Lemma C2_witness :
  let run := mpnn_loop (collab (two_candidates (λ _, true))) target
               (advanced None 1) "PDL1_l60_s0" "out/Trajectory/PDL1_l60_s0.pdb"
               60 0 (PInt 0) metrics
               (sc_candidates (two_candidates (λ _, true))) 0 1%Z 0%Z
               empty_world in
  (max_mpnn_sequences (advanced None 1) ≤ 1)%Z
  ∧ count (is_add_row final_csv) (trace run) ≤ 1
  ∧ mpnn_loop (collab (two_candidates (λ _, true))) target
      (advanced None 1) "PDL1_l60_s0" "out/Trajectory/PDL1_l60_s0.pdb"
      60 0 (PInt 0) metrics [("MKB", PFloat 2%Z)] 1 2%Z 1%Z empty_world
    = (2%Z, 1%Z, empty_world, []).
Proof.
  intros run.
  assert (Hcap : (max_mpnn_sequences (advanced None 1) ≤ 1)%Z) by reflexivity.
  destruct (C2_cap_bounds_accepted_designs (collab (two_candidates (λ _, true)))
              target (advanced None 1) "PDL1_l60_s0"
              "out/Trajectory/PDL1_l60_s0.pdb" 60 0 (PInt 0) metrics
              (sc_candidates (two_candidates (λ _, true))) empty_world)
    as (Hrows & _ & _ & Hstop).
  split; [exact Hcap|]. split; [exact Hrows|].
  exact (Hstop [("MKB", PFloat 2%Z)] 1 2%Z 1%Z empty_world Hcap).
Defined.

(** C4 as stated fails: a terminated trajectory is run, and leaves no row
    in the trajectory table. *)
Lemma C4_counterexample :
  let run := run_trajectory (collab terminated) target (advanced None 1)
               "PDL1_l60_s0" 60 0 (PInt 0) 0%Z 1%Z empty_world in
  count is_hallucination (trace run) = 1
  ∧ rows_of trajectory_csv (trace run) = []
  ∧ ¬ (List.length (rows_of trajectory_csv (trace run)) = 1).
Proof. vm_compute. split_and!; [done|done|discriminate]. Qed.

(** C8 as stated fails: the pass that skips the clashing trajectory leaves
    [trajectory_n] at 1. *)
Lemma C8_counterexample :
  let pass := loop_body (collab terminated) target (advanced None 1) 1%Z
                crashed_world in
  result pass = (Next, 1%Z)
  ∧ count is_hallucination (trace pass) = 0
  ∧ ¬ ((result pass).2 = (1 + 1)%Z).
Proof. vm_compute. split_and!; [done|done|discriminate]. Qed.

(** C5, on the demo world: initial filters that always answer true
    instead of false change nothing but the printed line. *)
Lemma C5_witness :
  let C := collab (two_candidates (λ _, true)) in
  let always : gmap string (pyval Z) → world → bool * world :=
    λ _ w, (true, w) in
  let run := validate_mpnn_design C target (advanced None 1) "PDL1_l60_s0"
               "out/Trajectory/PDL1_l60_s0.pdb" 60 0 (PInt 0) metrics 0
               ("MKA", PFloat 1%Z) 0%Z empty_world in
  let run' := validate_mpnn_design (with_initial_filters C always) target
                (advanced None 1) "PDL1_l60_s0"
                "out/Trajectory/PDL1_l60_s0.pdb" 60 0 (PInt 0) metrics 0
                ("MKA", PFloat 1%Z) 0%Z empty_world in
  (∀ m w, (always m w).2 = (apply_initial_filters C m w).2)
  ∧ (predict_binder_complex C "MKA" "PDL1_l60_s0_mpnn_0" empty_world).1.2 ≠ None
  ∧ result run' = result run
  ∧ env_after run' = env_after run
  ∧ without_prints (trace run') = without_prints (trace run)
  ∧ count (is_add_row mpnn_csv) (trace run) = 1.
Proof.
  intros C always run run'.
  assert (Hsame : ∀ m w, (always m w).2 = (apply_initial_filters C m w).2)
    by (intros m w; reflexivity).
  assert (Hpred :
    (predict_binder_complex C "MKA" "PDL1_l60_s0_mpnn_0" empty_world).1.2 ≠ None)
    by discriminate.
  destruct (C5_initial_filter_is_informational C target (advanced None 1)
              always "PDL1_l60_s0" "out/Trajectory/PDL1_l60_s0.pdb" 60 0
              (PInt 0) metrics 0 "MKA" (PFloat 1%Z) 0%Z empty_world Hsame)
    as ((Hres & Henv & Htrace) & Hrec).
  destruct (Hrec Hpred) as (_ & Hrow).
  split_and!; [exact Hsame|exact Hpred|exact Hres|exact Henv|exact Htrace|exact Hrow].
Defined.

(** C7, on the demo world: the first candidate's complex prediction fails. *)
Lemma C7_witness :
  let C := collab failed_prediction in
  (predict_binder_complex C "MKA" "PDL1_l60_s0_mpnn_0" empty_world).1.2 = None
  ∧ validate_mpnn_design C target (advanced None 1) "PDL1_l60_s0"
      "out/Trajectory/PDL1_l60_s0.pdb" 60 0 (PInt 0) metrics 0
      ("MKA", PFloat 1%Z) 0%Z empty_world
    = (0%Z, add_file "out/MPNN/Binder/PDL1_l60_s0_mpnn_0.pdb" empty_world,
       [Ev_print "Starting design validation for PDL1_l60_s0_mpnn_0";
        Ev_predict_binder_complex "MKA" "PDL1_l60_s0_mpnn_0";
        Ev_predict_binder_alone "MKA" "PDL1_l60_s0_mpnn_0";
        Ev_print "MPNN design prediction failed for: PDL1_l60_s0_mpnn_0";
        Ev_print ""]).
Proof.
  intros C.
  assert (Hnone :
    (predict_binder_complex C "MKA" "PDL1_l60_s0_mpnn_0" empty_world).1.2 = None)
    by reflexivity.
  split; [exact Hnone|].
  exact (proj1 (C7_failed_prediction_is_skipped C target (advanced None 1)
                  "PDL1_l60_s0" "out/Trajectory/PDL1_l60_s0.pdb" 60 0 (PInt 0)
                  metrics 0 "MKA" (PFloat 1%Z) [("MKB", PFloat 2%Z)] 1%Z 0%Z
                  empty_world Hnone)).
Defined.

(** C9, on the demo world: with the flag set, the two candidates that the
    redesign returns are not validated. *)
Lemma C9_witness :
  let C := collab (two_candidates (λ _, true)) in
  let run := mpnn_stage C target (advanced (Some true) 1)
               (trajectory (two_candidates (λ _, true))) "PDL1_l60_s0"
               "out/Trajectory/PDL1_l60_s0.pdb" 60 0 (PInt 0) metrics 1%Z
               empty_world in
  stop_after_mpnn_generation (advanced (Some true) 1) = true
  ∧ enable_mpnn (advanced (Some true) 1) = true
  ∧ count is_validation (trace run) = 0
  ∧ result run = 2%Z
  ∧ env_after run = empty_world.
Proof.
  intros C run.
  assert (Hstop : stop_after_mpnn_generation (advanced (Some true) 1) = true)
    by reflexivity.
  assert (Hmpnn : enable_mpnn (advanced (Some true) 1) = true) by reflexivity.
  destruct (C9_stop_after_mpnn_generation C target (advanced (Some true) 1)
              (trajectory (two_candidates (λ _, true))) "PDL1_l60_s0"
              "out/Trajectory/PDL1_l60_s0.pdb" 60 0 (PInt 0) metrics 1%Z
              empty_world) as (_ & Hrun).
  destruct (Hrun Hstop) as (Hnone & Hres & Hrest).
  destruct (Hrest Hmpnn) as (Henv & _).
  split_and!; [exact Hstop|exact Hmpnn|exact Hnone|exact Hres|exact Henv].
Defined.

End Runs.

(** ** Names and paths *)

Section Names.

Context {F Env : Type}.
Context (C : collaborators F Env).
Context (target_settings : target_settings_t F).

Lemma chars_app (a b : string) : chars (a +:+ b) = chars a ++ chars b.
Proof. induction a as [|c a IH]; simpl; [done|]. by rewrite IH. Qed.

Lemma pretty_N_char_digit (x : N) : pretty_N_char x ≠ "_"%char.
Proof. unfold pretty_N_char. by repeat case_match. Qed.

Lemma pretty_N_go_chars (x : N) (s : string) :
  "_"%char ∉ chars s → "_"%char ∉ chars (pretty_N_go x s).
Proof.
  revert s. induction (N.lt_wf_0 x) as [x _ IH]; intros s Hs.
  destruct (decide (0 < x)%N) as [Hx|Hx].
  - rewrite pretty_N_go_step by done. apply IH.
    + by apply N.div_lt.
    + simpl. rewrite not_elem_of_cons. split; [|done].
      intros Heq. by apply (pretty_N_char_digit (x `mod` 10)%N).
  - assert (x = 0%N) as -> by lia. by rewrite pretty_N_go_0.
Qed.

Lemma pretty_N_chars (x : N) : "_"%char ∉ chars (pretty x).
Proof.
  unfold pretty, pretty_N. case_decide.
  - simpl. rewrite not_elem_of_cons. split; [done|]. apply not_elem_of_nil.
  - apply pretty_N_go_chars. apply not_elem_of_nil.
Qed.

Lemma pretty_Z_chars (z : Z) : "_"%char ∉ chars (pretty z).
Proof.
  destruct z as [|p|p]; unfold pretty, pretty_Z.
  - simpl. rewrite not_elem_of_cons. split; [done|]. apply not_elem_of_nil.
  - apply (pretty_N_chars (N.pos p)).
  - rewrite chars_app. simpl. rewrite not_elem_of_cons. split; [done|].
    apply (pretty_N_chars (N.pos p)).
Qed.

(** Two strings free of underscores, each followed by an underscore: equal
    wholes have equal parts. *)
Lemma split_at_underscore (a b x y : string) :
  "_"%char ∉ chars a → "_"%char ∉ chars b →
  a +:+ String "_" x = b +:+ String "_" y → a = b ∧ x = y.
Proof.
  revert b. induction a as [|c a IH]; intros [|d b] Ha Hb Heq; simpl in *.
  - by inversion Heq.
  - inversion Heq; subst. exfalso. apply Hb. by left.
  - inversion Heq; subst. exfalso. apply Ha. by left.
  - inversion Heq; subst.
    rewrite not_elem_of_cons in Ha. rewrite not_elem_of_cons in Hb.
    destruct (IH b) as [-> ->]; [tauto|tauto|done|done].
Qed.

(** X1. The design name determines the sampled length and seed: two
    samples that differ in length or seed never share a design name, so
    the check on existing trajectories never takes one design for
    another. *)
Theorem design_name_determines_sample (length1 seed1 length2 seed2 : Z) :
  make_design_name target_settings length1 seed1
  = make_design_name target_settings length2 seed2 →
  length1 = length2 ∧ seed1 = seed2.
Proof.
  unfold make_design_name. intros Heq.
  apply (inj (String.app _)) in Heq.
  change ("_l" +:+ ?x) with (String "_" (String "l" x)) in Heq.
  inversion Heq as [Heq']. clear Heq.
  change ("_s" +:+ ?x) with (String "_" (String "s" x)) in Heq'.
  apply split_at_underscore in Heq' as [Hl Hs]; [|apply pretty_Z_chars..].
  inversion Hs as [Hs']. by split; apply (inj pretty).
Qed.

Lemma candidate_calls_names design_name i (candidates : list (string * pyval F)) :
  (candidate_calls design_name i candidates).*2
  = (λ j, design_name +:+ "_mpnn_" +:+ pretty j) <$> seq i (List.length candidates).
Proof.
  revert i. induction candidates as [|[s sc] rest IH]; intros i; simpl; [done|].
  by rewrite IH.
Qed.

Lemma candidate_calls_sequences design_name i (candidates : list (string * pyval F)) :
  (candidate_calls design_name i candidates).*1 = candidates.*1.
Proof.
  revert i. induction candidates as [|[s sc] rest IH]; intros i; simpl; [done|].
  by rewrite IH.
Qed.

Lemma candidate_names_NoDup design_name i (candidates : list (string * pyval F)) :
  NoDup (candidate_calls design_name i candidates).*2.
Proof.
  rewrite candidate_calls_names. apply NoDup_fmap_2; [|apply NoDup_seq].
  intros j k Heq. apply (inj (String.app _)) in Heq.
  apply (inj (String.app _)) in Heq. by apply (inj pretty) in Heq.
Qed.



End Names.

(** ** The sampled lengths (line 107) *)

Section Lengths.







End Lengths.

(** ** The names of the settings files (lines 38-40) *)

Section SettingsNames.

Lemma has_slash_chars (p : string) : has_slash p = true ↔ "/"%char ∈ chars p.
Proof.
  induction p as [|c p IH]; simpl.
  - split; [done|by intros ?%elem_of_nil].
  - rewrite orb_true_iff, IH, elem_of_cons, Ascii.eqb_eq.
    split; (intros [?|?]; [by left|by right]).
Qed.

Lemma has_slash_false (p : string) : has_slash p = false ↔ "/"%char ∉ chars p.
Proof. rewrite <-has_slash_chars. by destruct (has_slash p). Qed.

Lemma os_path_basename_no_slash (p : string) :
  has_slash (os_path_basename p) = false.
Proof.
  induction p as [|c p IH]; [done|].
  cbn [os_path_basename]. by destruct (has_slash (String c p)) eqn:Hs.
Qed.

Lemma os_path_basename_id (p : string) :
  has_slash p = false → os_path_basename p = p.
Proof. destruct p as [|c p]; [done|]. cbn [os_path_basename]. by intros ->. Qed.

Lemma os_path_basename_after_slash (dir name : string) :
  has_slash name = false → os_path_basename (dir +:+ "/" +:+ name) = name.
Proof.
  intros Hname. induction dir as [|c dir IH].
  - simpl. by apply os_path_basename_id.
  - change (String c dir +:+ "/" +:+ name) with (String c (dir +:+ "/" +:+ name)).
    cbn [os_path_basename].
    assert (has_slash (String c (dir +:+ "/" +:+ name)) = true) as ->; [|done].
    apply has_slash_chars. simpl. right. rewrite chars_app.
    apply elem_of_app. right. by left.
Qed.

Lemma split_dot_first_chars (s : string) c :
  c ∈ chars (split_dot_first s) → c ∈ chars s ∧ c ≠ "."%char.
Proof.
  induction s as [|d s IH]; simpl; [by intros ?%elem_of_nil|].
  destruct (Ascii.eqb d ".") eqn:Hd; simpl; [by intros ?%elem_of_nil|].
  apply Ascii.eqb_neq in Hd.
  intros [->|Hc]%elem_of_cons; [split; [by left|done]|].
  destruct (IH Hc). split; [by right|done].
Qed.

Lemma split_dot_first_stem (name ext : string) :
  "."%char ∉ chars name → split_dot_first (name +:+ "." +:+ ext) = name.
Proof.
  induction name as [|c name IH]; intros Hname; [done|].
  simpl in *. rewrite not_elem_of_cons in Hname. destruct Hname as [Hc Hname].
  assert (Ascii.eqb c "." = false) as -> by (apply Ascii.eqb_neq; congruence).
  by rewrite IH.
Qed.

Lemma split_dot_first_id (name : string) :
  "."%char ∉ chars name → split_dot_first name = name.
Proof.
  induction name as [|c name IH]; intros Hname; [done|].
  simpl in *. rewrite not_elem_of_cons in Hname. destruct Hname as [Hc Hname].
  assert (Ascii.eqb c "." = false) as -> by (apply Ascii.eqb_neq; congruence).
  by rewrite IH.
Qed.

(** X4. The name under which a settings file is announced has neither a
    slash nor a dot.  For a path [dir/name.ext], where [name] has neither
    and [ext] has no slash, it is [name], whatever dots [dir] and [ext]
    have; with no extension it is [name] as well.  A file name that
    begins with a dot is announced under the empty name. *)
Theorem settings_name_is_the_stem (dir name ext : string) :
  (("/"%char ∉ chars (settings_name dir))
   ∧ ("."%char ∉ chars (settings_name dir)))
  ∧ (("/"%char ∉ chars name) → ("."%char ∉ chars name) →
     ("/"%char ∉ chars ext) →
     settings_name (dir +:+ "/" +:+ name +:+ "." +:+ ext) = name
     ∧ settings_name (dir +:+ "/" +:+ name) = name
     ∧ settings_name (dir +:+ "/" +:+ "." +:+ name) = "").
Proof.
  unfold settings_name. split.
  - split.
    + intros [Hc _]%split_dot_first_chars.
      apply has_slash_chars in Hc. by rewrite os_path_basename_no_slash in Hc.
    + by intros [_ Hc]%split_dot_first_chars.
  - intros Hslash Hdot Hext. split_and!.
    + rewrite os_path_basename_after_slash.
      * by apply split_dot_first_stem.
      * apply has_slash_false. rewrite !chars_app. simpl.
        rewrite not_elem_of_app, not_elem_of_cons. done.
    + rewrite os_path_basename_after_slash by by apply has_slash_false.
      by apply split_dot_first_id.
    + rewrite os_path_basename_after_slash; [done|].
      apply has_slash_false. simpl. rewrite not_elem_of_cons. done.
Qed.

End SettingsNames.

(** ** More lemmas on traces *)

Section MoreObservationLemmas.

Context {F : Type}.

Lemma predicted_complexes_app (a b : list (event F)) :
  predicted_complexes (a ++ b) = predicted_complexes a ++ predicted_complexes b.
Proof.
  induction a as [|ev a IH]; [done|]. destruct ev; simpl; by rewrite ?IH.
Qed.

Lemma predicted_monomers_app (a b : list (event F)) :
  predicted_monomers (a ++ b) = predicted_monomers a ++ predicted_monomers b.
Proof.
  induction a as [|ev a IH]; [done|]. destruct ev; simpl; by rewrite ?IH.
Qed.

Lemma copy_destinations_app (a b : list (event F)) :
  copy_destinations (a ++ b) = copy_destinations a ++ copy_destinations b.
Proof.
  induction a as [|ev a IH]; [done|]. destruct ev; simpl; by rewrite ?IH.
Qed.

Lemma hallucinated_app (a b : list (event F)) :
  hallucinated (a ++ b) = hallucinated a ++ hallucinated b.
Proof.
  induction a as [|ev a IH]; [done|]. destruct ev; simpl; by rewrite ?IH.
Qed.

Lemma hallucinated_length (tr : list (event F)) :
  List.length (hallucinated tr) = count is_hallucination tr.
Proof.
  induction tr as [|ev tr IH]; [done|].
  rewrite count_cons. destruct ev; simpl; by rewrite IH.
Qed.

Lemma copy_destinations_length (tr : list (event F)) :
  List.length (copy_destinations tr) = count is_copy tr.
Proof.
  induction tr as [|ev tr IH]; [done|].
  rewrite count_cons. destruct ev; simpl; by rewrite IH.
Qed.

Lemma predicted_complexes_length (tr : list (event F)) :
  List.length (predicted_complexes tr) = count is_complex_prediction tr.
Proof.
  induction tr as [|ev tr IH]; [done|].
  rewrite count_cons. destruct ev; simpl; by rewrite IH.
Qed.

(** No event of a kind that an invariant of the trace rules out. *)
Lemma count_excluded (p : event F → bool) (Q : Prop) (tr : list (event F)) :
  ¬ Q → Forall (λ ev, p ev = true → Q) tr → count p tr = 0.
Proof.
  intros HQ. induction 1 as [|ev tr Hev _ IH]; [done|].
  rewrite count_cons, IH. destruct (p ev); [|done]. exfalso. by apply HQ, Hev.
Qed.

Lemma count_zero_Forall (p : event F → bool) (tr : list (event F)) :
  count p tr = 0 ↔ Forall (λ ev, p ev = false) tr.
Proof.
  induction tr as [|ev tr IH]; [split; [constructor|done]|].
  rewrite count_cons, Forall_cons, <-IH.
  destruct (p ev); simpl; intuition (try discriminate; try lia).
Qed.

Lemma rows_of_no_rows t (tr : list (event F)) :
  count (is_add_row t) tr = 0 → rows_of t tr = [].
Proof.
  rewrite <-rows_of_length. by destruct (rows_of t tr).
Qed.

End MoreObservationLemmas.

(** ** More properties of the script *)

Section MoreProperties.

Context {F Env : Type}.
Context (C : collaborators F Env).
Context (target_settings : target_settings_t F).
Context (advanced_settings : advanced_settings_t F).

Local Abbreviation dict := (gmap string (pyval F)).

(** One candidate: what is predicted, recorded, copied and removed. *)
Lemma validate_mpnn_design_calls design_name trajectory_pdb length seed
    helicity_value (trajectory_metrics : dict) i mpnn_sequence mpnn_score
    mpnn_passes e :
  let name := design_name +:+ "_mpnn_" +:+ pretty i in
  let run := validate_mpnn_design C target_settings advanced_settings design_name
               trajectory_pdb length seed helicity_value trajectory_metrics i
               (mpnn_sequence, mpnn_score) mpnn_passes e in
  predicted_complexes (trace run) = [(mpnn_sequence, name)]
  ∧ predicted_monomers (trace run) = [(mpnn_sequence, name)]
  ∧ rows_of final_csv (trace run) `sublist_of` rows_of mpnn_csv (trace run)
  ∧ Forall (λ row : list (pyval F), row !! 0 = Some (PStr name))
           (rows_of mpnn_csv (trace run))
  ∧ Forall (λ dst, ∃ file,
              dst = os_path_join (design_paths C "MPNN/Accepted") file)
           (copy_destinations (trace run))
  ∧ Forall (λ ev, is_remove ev = true →
              remove_unrelaxed_complex advanced_settings = true
              ∨ remove_binder_monomer advanced_settings = true)
           (trace run)
  ∧ count is_redesign (trace run) = 0.
Proof.
  intros name run. focus_run run. unfold run, name.
  unfold validate_mpnn_design, validate_predicted, relax_and_score,
    record_and_filter, when.
  run_script; read_outcome; unfocus_run; unfold result, trace, count; simpl.
  all: split_and!; try done.
  all: try (repeat (apply Forall_cons; split; [by eexists|]); apply Forall_nil_2).
  all: try apply sublist_nil_l.
  all: repeat match goal with
              | H : _ && _ = true |- _ => apply andb_true_iff in H as [? ?]
              end.
  all: repeat (apply Forall_cons; split; [simpl; intros; auto; done|]);
       apply Forall_nil_2.
Qed.

(** The sub-loop: candidates are taken in order. *)
Lemma mpnn_loop_calls design_name trajectory_pdb length seed helicity_value
    (trajectory_metrics : dict) candidates i mpnn_count mpnn_passes e :
  let run := mpnn_loop C target_settings advanced_settings design_name
               trajectory_pdb length seed helicity_value trajectory_metrics
               candidates i mpnn_count mpnn_passes e in
  predicted_complexes (trace run)
    `prefix_of` candidate_calls design_name i candidates
  ∧ predicted_monomers (trace run) = predicted_complexes (trace run)
  ∧ rows_of final_csv (trace run) `sublist_of` rows_of mpnn_csv (trace run)
  ∧ Forall (λ row : list (pyval F),
              ∃ j : nat,
                row !! 0 = Some (PStr (design_name +:+ "_mpnn_" +:+ pretty j)))
           (rows_of mpnn_csv (trace run))
  ∧ Forall (λ dst, ∃ file,
              dst = os_path_join (design_paths C "MPNN/Accepted") file)
           (copy_destinations (trace run))
  ∧ Forall (λ ev, is_remove ev = true →
              remove_unrelaxed_complex advanced_settings = true
              ∨ remove_binder_monomer advanced_settings = true)
           (trace run)
  ∧ count is_redesign (trace run) = 0.
Proof.
  revert i mpnn_count mpnn_passes e.
  induction candidates as [|[mpnn_sequence mpnn_score] rest IH];
    intros i mpnn_count mpnn_passes e.
  { intros run. unfold run. cbn [mpnn_loop]. rewrite ret_alone, trace_triple.
    simpl. split_and!; try done; constructor. }
  destruct (decide (max_mpnn_sequences advanced_settings ≤ mpnn_passes)%Z)
    as [Hcap|Hcap].
  { intros run. unfold run. rewrite mpnn_loop_cap_reached by done.
    rewrite trace_triple. simpl.
    split_and!; try done; try constructor. apply prefix_nil. }
  intros run. unfold run. rewrite mpnn_loop_step by done. cbv zeta.
  set (first := validate_mpnn_design _ _ _ _ _ _ _ _ _ _ _ _ _).
  destruct (validate_mpnn_design_calls design_name trajectory_pdb length seed
              helicity_value trajectory_metrics i mpnn_sequence mpnn_score
              mpnn_passes e)
    as (Hcx & Hmono & Hsub & Hkey & Hcopy & Hrm & Hre).
  fold first in Hcx, Hmono, Hsub, Hkey, Hcopy, Hrm, Hre.
  destruct (IH (S i) (mpnn_count + 1)%Z (result first) (env_after first))
    as (IHcx & IHmono & IHsub & IHkey & IHcopy & IHrm & IHre).
  rewrite trace_emit, predicted_complexes_app, predicted_monomers_app,
    !rows_of_app, copy_destinations_app, count_app.
  split_and!.
  - rewrite Hcx. cbn [candidate_calls app]. by apply prefix_cons.
  - by rewrite Hmono, Hcx, IHmono.
  - by apply sublist_app.
  - apply Forall_app. split; [|done].
    eapply Forall_impl; [exact Hkey|]. intros row Hrow. by exists i.
  - by apply Forall_app.
  - by apply Forall_app.
  - lia.
Qed.

End MoreProperties.

Section MoreProperties2.

Context {F Env : Type}.
Context (C : collaborators F Env).
Context (target_settings : target_settings_t F).
Context (advanced_settings : advanced_settings_t F).

Local Abbreviation dict := (gmap string (pyval F)).

(** The redesign stage, path by path. *)
Lemma mpnn_stage_unfold trajectory design_name trajectory_pdb length seed
    helicity_value (trajectory_metrics : dict) trajectory_n e :
  mpnn_stage C target_settings advanced_settings trajectory design_name
    trajectory_pdb length seed helicity_value trajectory_metrics trajectory_n e
  = if enable_mpnn advanced_settings then
      let generated := mpnn_gen_sequence C trajectory design_name e in
      let announced :=
        [Ev_mpnn_gen_sequence design_name;
         Ev_print (generated_message design_name (List.length generated.1))] in
      if stop_after_mpnn_generation advanced_settings then
        ((trajectory_n + 1)%Z, generated.2,
         announced
         ++ [Ev_print (stopping_message design_name (List.length generated.1))])
      else
        let loop := mpnn_loop C target_settings advanced_settings design_name
                      trajectory_pdb length seed helicity_value
                      trajectory_metrics generated.1 0 1%Z 0%Z generated.2 in
        ((trajectory_n + 1)%Z,
         (if remove_unrelaxed_trajectory advanced_settings
          then remove_file C (Some trajectory_pdb) (env_after loop)
          else env_after loop),
         announced ++ trace loop
         ++ (if remove_unrelaxed_trajectory advanced_settings
             then [Ev_remove_file (Some trajectory_pdb)] else [])
         ++ finish_events design_name)
    else ((trajectory_n + 1)%Z, e, finish_events design_name).
Proof.
  unfold mpnn_stage, finish_trajectory, when, finish_events.
  destruct (enable_mpnn advanced_settings); [|run_script; by read_outcome].
  destruct (mpnn_gen_sequence C trajectory design_name e)
    as [candidates e1] eqn:Hgen.
  cbn [fst snd]. cbv zeta.
  destruct (stop_after_mpnn_generation advanced_settings) eqn:Hstop.
  - run_script; by read_outcome.
  - run_script.
    all: rewrite bind_emit; run_script; read_outcome.
    all: rewrite <-?app_assoc; reflexivity.
Qed.


(** A trajectory that is run: the hallucination, then what
    [prelude_event] allows, then, without a termination signal, the
    redesign stage. *)
Lemma run_trajectory_shape design_name length seed helicity_value start_time
    trajectory_n e :
  let trajectory :=
    (binder_hallucination C design_name length seed helicity_value e).1 in
  let trajectory_metrics : dict :=
    round_metrics C (default ∅ (tmp_best_aux_log trajectory)) in
  let trajectory_pdb :=
    os_path_join (design_paths C "Trajectory") (design_name +:+ ".pdb") in
  ∃ pre e1,
    Forall (prelude_event design_name trajectory_metrics) pre
    ∧ count (is_add_row trajectory_csv) pre
      = (if no_termination_signal trajectory then 1 else 0)
    ∧ count is_relax_or_score pre
      = (if no_termination_signal trajectory then 7 else 0)
    ∧ (tmp_best_aux_log trajectory = None →
       Ev_print (missing_metrics_warning design_name) ∈ pre)
    ∧ run_trajectory C target_settings advanced_settings design_name length
        seed helicity_value start_time trajectory_n e
      = if no_termination_signal trajectory then
          emit (Ev_print ("Starting trajectory: " +:+ design_name)
                :: Ev_binder_hallucination design_name length seed
                     helicity_value
                :: pre)
            (mpnn_stage C target_settings advanced_settings trajectory
               design_name trajectory_pdb length seed helicity_value
               trajectory_metrics trajectory_n e1)
        else
          ((trajectory_n + 1)%Z, e1,
           Ev_print ("Starting trajectory: " +:+ design_name)
           :: Ev_binder_hallucination design_name length seed helicity_value
           :: pre).
Proof.
  cbv zeta.
  destruct (binder_hallucination C design_name length seed helicity_value e)
    as [trajectory e1] eqn:Hh.
  cbn [fst].
  destruct (tmp_best_aux_log trajectory) as [log|] eqn:Hlog;
    destruct (no_termination_signal trajectory) eqn:Hterm;
    cbn [default].
  all: match goal with
       | |- context [run_trajectory C ?ts ?adv ?dn ?len ?sd ?hv ?st ?n ?e'] =>
         focus_run (run_trajectory C ts adv dn len sd hv st n e')
       end.
  all: unfold run_trajectory, get_trajectory_metrics, score_trajectory,
         missing_metrics_warning.
  all: run_script; read_outcome; unfocus_run.
  all: refine (ex_intro _ _ (ex_intro _ _
                 (conj _ (conj _ (conj _ (conj _ eq_refl)))))).
  all: try (unfold count; simpl; reflexivity).
  all: try (intros; discriminate).
  all: try (intros _; by repeat constructor).
  all: repeat (apply Forall_cons; split; [by simpl|]); apply Forall_nil_2.
Qed.


Lemma run_invariant_nil : run_invariant C advanced_settings [].
Proof.
  unfold run_invariant, count. simpl. split_and!; try done; try constructor.
  lia.
Qed.

Lemma run_invariant_app (a b : list (event F)) :
  run_invariant C advanced_settings a → run_invariant C advanced_settings b →
  run_invariant C advanced_settings (a ++ b).
Proof.
  intros (Ha1 & Ha2 & Ha3 & Ha4 & Ha5 & Ha6) (Hb1 & Hb2 & Hb3 & Hb4 & Hb5 & Hb6).
  unfold run_invariant.
  rewrite !count_app, !rows_of_app, copy_destinations_app.
  split_and!; [by apply Forall_app|lia|nia|by apply sublist_app|lia
              |by apply Forall_app].
Qed.

Lemma candidate_call_rows t (tr : list (event F)) :
  t ≠ trajectory_csv → count (is_add_row t) tr ≤ count is_candidate_call tr.
Proof.
  intros Ht. induction tr as [|ev tr IH]; [done|].
  rewrite !count_cons. destruct ev; simpl; try lia.
  repeat case_bool_decide; simplify_eq; lia.
Qed.

Lemma candidate_call_copies (tr : list (event F)) :
  count is_copy tr ≤ count is_candidate_call tr.
Proof.
  induction tr as [|ev tr IH]; [done|].
  rewrite !count_cons. destruct ev; simpl; try lia.
Qed.

(** A part of the run without redesign, candidate call or removal. *)
Lemma run_invariant_quiet (tr : list (event F)) :
  count is_redesign tr = 0 → count is_candidate_call tr = 0 →
  count is_remove tr = 0 → run_invariant C advanced_settings tr.
Proof.
  intros Hre Hcand Hrm.
  pose proof (candidate_call_rows final_csv tr ltac:(done)) as Hfinal.
  pose proof (candidate_call_copies tr) as Hcopy.
  assert (Hrows : rows_of final_csv tr = []) by (apply rows_of_no_rows; lia).
  assert (Hdst : copy_destinations tr = []).
  { pose proof (copy_destinations_length tr).
    destruct (copy_destinations tr); [done|simpl in *; lia]. }
  unfold run_invariant. rewrite Hrows, Hdst.
  split_and!; [|lia|lia|apply sublist_nil_l|lia|constructor].
  apply count_zero_Forall in Hre, Hcand, Hrm.
  rewrite Forall_forall in Hre, Hcand, Hrm. apply Forall_forall.
  intros ev Hev. unfold settings_event.
  rewrite (Hre ev Hev), (Hcand ev Hev), (Hrm ev Hev).
  split_and!; [done|by intros [|]|done].
Qed.

Lemma prelude_rows design_name (trajectory_metrics : dict) pre :
  Forall (prelude_event design_name trajectory_metrics) pre →
  Forall (λ row : list (pyval F),
            prelude_event design_name trajectory_metrics
              (Ev_add_row_to_csv trajectory_csv row))
         (rows_of trajectory_csv pre).
Proof.
  induction 1 as [|ev pre Hev _ IH]; [constructor|].
  destruct ev; simpl in *; try done.
  destruct Hev as (-> & Hev). simpl. constructor; [|done]. by split.
Qed.

Lemma prelude_counts design_name (trajectory_metrics : dict) pre :
  Forall (prelude_event design_name trajectory_metrics) pre →
  count is_redesign pre = 0 ∧ count is_candidate_call pre = 0
  ∧ count is_remove pre = 0 ∧ count is_hallucination pre = 0
  ∧ count is_check_accepted pre = 0 ∧ count is_check_n_trajectories pre = 0
  ∧ hallucinated pre = [] ∧ rows_of mpnn_csv pre = []
  ∧ predicted_complexes pre = [] ∧ rows_of final_csv pre = []
  ∧ copy_destinations pre = [] ∧ count is_copy pre = 0
  ∧ count (is_add_row final_csv) pre = 0.
Proof.
  induction 1 as [|ev pre Hev _ IH]; [done|].
  destruct IH as (? & ? & ? & ? & ? & ? & ? & ? & ? & ? & ? & ? & ?).
  rewrite !count_cons.
  destruct ev; simpl in *; try done.
  destruct Hev as (-> & _). by simpl.
Qed.

Lemma sub_loop_quiet (trajectory_metrics : dict) tr :
  Forall (sub_loop_event trajectory_metrics) tr →
  hallucinated tr = [] ∧ count is_hallucination tr = 0
  ∧ count is_check_accepted tr = 0 ∧ count is_check_n_trajectories tr = 0.
Proof.
  induction 1 as [|ev tr Hev _ IH]; [done|].
  destruct IH as (? & ? & ? & ?).
  rewrite !count_cons. destruct ev; simpl in *; done.
Qed.

Lemma mpnn_loop_final_rows_bound design_name trajectory_pdb length seed
    helicity_value (trajectory_metrics : dict) candidates e :
  count (is_add_row final_csv)
    (trace (mpnn_loop C target_settings advanced_settings design_name
              trajectory_pdb length seed helicity_value trajectory_metrics
              candidates 0 1%Z 0%Z e))
  ≤ Z.to_nat (max_mpnn_sequences advanced_settings).
Proof.
  destruct (mpnn_loop_accounting C target_settings advanced_settings design_name
              trajectory_pdb length seed helicity_value trajectory_metrics
              candidates 0 1%Z 0%Z e) as (Hres & Hcap & _).
  destruct (decide (0 ≤ max_mpnn_sequences advanced_settings)%Z) as [Hpos|Hneg].
  - specialize (Hcap Hpos). lia.
  - rewrite mpnn_loop_cap_reached by lia. unfold trace, count. simpl. lia.
Qed.

Ltac solve_settings :=
  unfold settings_event; simpl; split_and!; intros;
  repeat match goal with H : _ ∨ _ |- _ => destruct H end;
  try discriminate; try done; auto.

Ltac solve_settings_list :=
  repeat first
    [ apply Forall_nil_2
    | assumption
    | apply Forall_app; split
    | apply Forall_cons; split; [solve_settings|] ].

(** The redesign stage: what it adds to a run. *)
Lemma mpnn_stage_facts trajectory design_name trajectory_pdb length seed
    helicity_value (trajectory_metrics : dict) trajectory_n e :
  let tr := trace (mpnn_stage C target_settings advanced_settings trajectory
                     design_name trajectory_pdb length seed helicity_value
                     trajectory_metrics trajectory_n e) in
  Forall (settings_event advanced_settings) tr
  ∧ count is_redesign tr ≤ 1
  ∧ count (is_add_row final_csv) tr
    ≤ Z.to_nat (max_mpnn_sequences advanced_settings)
  ∧ rows_of final_csv tr `sublist_of` rows_of mpnn_csv tr
  ∧ count is_copy tr = 3 * count (is_add_row final_csv) tr
  ∧ Forall (λ dst, ∃ file,
              dst = os_path_join (design_paths C "MPNN/Accepted") file)
           (copy_destinations tr).
Proof.
  intros tr. unfold tr. rewrite mpnn_stage_unfold.
  destruct (enable_mpnn advanced_settings) eqn:Henable.
  2: { rewrite trace_triple. unfold finish_events, count. simpl.
       split_and!; [solve_settings_list|lia|lia|done|lia|constructor]. }
  destruct (mpnn_gen_sequence C trajectory design_name e) as [candidates e1].
  cbn [fst snd]. cbv zeta.
  destruct (stop_after_mpnn_generation advanced_settings) eqn:Hstop.
  { rewrite trace_triple. unfold count. simpl.
    split_and!; [solve_settings_list|lia|lia|done|lia|constructor]. }
  rewrite trace_triple.
  pose proof (mpnn_loop_final_rows_bound design_name trajectory_pdb length seed
                helicity_value trajectory_metrics candidates e1) as Hbound.
  destruct (mpnn_loop_calls C target_settings advanced_settings design_name
              trajectory_pdb length seed helicity_value trajectory_metrics
              candidates 0 1%Z 0%Z e1)
    as (_ & _ & Hsub & _ & Hdst & Hrm & Hre).
  destruct (mpnn_loop_accounting C target_settings advanced_settings design_name
              trajectory_pdb length seed helicity_value trajectory_metrics
              candidates 0 1%Z 0%Z e1) as (_ & _ & _ & _ & Hcopy & _).
  set (loop := trace (mpnn_loop _ _ _ _ _ _ _ _ _ _ _ _ _ _)) in *.
  clearbody loop.
  assert (Hloop : Forall (settings_event advanced_settings) loop).
  { eapply Forall_impl; [exact Hrm|]. intros ev Hev. unfold settings_event.
    split_and!; [done|done|]. intros Hr. destruct (Hev Hr); tauto. }
  rewrite !count_app, !rows_of_app, !copy_destinations_app.
  destruct (remove_unrelaxed_trajectory advanced_settings) eqn:Hremove.
  all: unfold finish_events, count in *; simpl.
  all: rewrite ?app_nil_r.
  all: split_and!; [solve_settings_list|lia|lia|done|lia|done].
Qed.


(** A trajectory that is run: what it adds to a run. *)
Lemma run_trajectory_facts design_name length seed helicity_value start_time
    trajectory_n e :
  let tr := trace (run_trajectory C target_settings advanced_settings
                     design_name length seed helicity_value start_time
                     trajectory_n e) in
  run_invariant C advanced_settings tr
  ∧ hallucinated tr = [(design_name, length, seed, helicity_value)]
  ∧ count is_hallucination tr = 1
  ∧ count is_check_accepted tr = 0
  ∧ count is_check_n_trajectories tr = 0
  ∧ count is_redesign tr ≤ 1.
Proof.
  intros tr. unfold tr.
  destruct (run_trajectory_shape design_name length seed helicity_value
              start_time trajectory_n e) as (pre & e1 & Hpre & _ & _ & _ & ->).
  apply prelude_counts in Hpre
    as (Hre & Hcand & Hrm & Hhal & Hca & Hcn & Hnames & Hmpnn & _ & Hfin
        & Hdst & Hcopy & Hfinal).
  pose proof (run_invariant_quiet pre Hre Hcand Hrm) as (Hp1 & _).
  destruct (no_termination_signal _).
  - rewrite trace_emit.
    match goal with
    | |- context [mpnn_stage C ?ts ?adv ?t ?dn ?pdb ?len ?sd ?hv ?tm ?n ?e'] =>
      destruct (mpnn_stage_facts t dn pdb len sd hv tm n e')
        as (Hs1 & Hs2 & Hs3 & Hs4 & Hs5 & Hs6);
      destruct (mpnn_stage_outcome C ts adv t dn pdb len sd hv tm n e')
        as (_ & Hsub);
      set (stage := trace (mpnn_stage C ts adv t dn pdb len sd hv tm n e')) in *
    end.
    clearbody stage. apply sub_loop_quiet in Hsub as (Hq1 & Hq2 & Hq3 & Hq4).
    unfold run_invariant.
    rewrite !count_app, !rows_of_app, !copy_destinations_app, hallucinated_app.
    rewrite !count_cons. simpl.
    rewrite Hnames, Hq1, Hfin, Hmpnn, Hdst. simpl.
    split_and!; try lia; try done.
    repeat (apply Forall_cons; split; [solve_settings|]).
    by apply Forall_app.
  - rewrite trace_triple. unfold run_invariant. rewrite !count_cons. simpl.
    rewrite Hnames, Hfin, Hmpnn, Hdst. split_and!; try lia; try done.
    repeat (apply Forall_cons; split; [solve_settings|]). done.
Qed.

(** One pass through the loop body, path by path. *)
Lemma loop_body_unfold trajectory_n e :
  loop_body C target_settings advanced_settings trajectory_n e
  = let reached := check_accepted_designs C e in
    if reached.1 then
      (Break, trajectory_n, reached.2, [Ev_check_accepted_designs])
    else
      let exhausted := check_n_trajectories C reached.2 in
      if exhausted.1 then
        (Break, trajectory_n, exhausted.2,
         [Ev_check_accepted_designs; Ev_check_n_trajectories])
      else
        let started := time_time C exhausted.2 in
        let seed := np_random_randint C 0 999999 started.2 in
        let samples :=
          np_arange (py_min (lengths target_settings))
                    (py_max (lengths target_settings) + 1) in
        let length := np_random_choice C samples seed.2 in
        let helicity := load_helicity C length.2 in
        let step :=
          design_step C target_settings advanced_settings
            (make_design_name target_settings length.1 seed.1) length.1 seed.1
            helicity.1 started.1 trajectory_n helicity.2 in
        (Next, result step, env_after step,
         [Ev_check_accepted_designs; Ev_check_n_trajectories; Ev_time;
          Ev_randint 0 999999; Ev_choice samples; Ev_load_helicity]
         ++ trace step).
Proof.
  cbv zeta. unfold loop_body.
  destruct (check_accepted_designs C e) as [[] e1] eqn:Hacc; cbn [fst snd].
  { run_script. read_outcome. reflexivity. }
  destruct (check_n_trajectories C e1) as [[] e2] eqn:Hmax; cbn [fst snd].
  { run_script. read_outcome. reflexivity. }
  destruct (time_time C e2) as [t e3] eqn:Ht; cbn [fst snd].
  destruct (np_random_randint C 0 999999 e3) as [sd e4] eqn:Hsd; cbn [fst snd].
  destruct (np_random_choice C _ e4) as [ln e5] eqn:Hln; cbn [fst snd].
  destruct (load_helicity C e5) as [hv e6] eqn:Hhv; cbn [fst snd].
  run_script. rewrite bind_emit. run_script. read_outcome.
  by rewrite app_nil_r.
Qed.


(** One pass through the loop body: what it adds to a run. *)
Lemma loop_body_facts trajectory_n e :
  let pass := loop_body C target_settings advanced_settings trajectory_n e in
  run_invariant C advanced_settings (trace pass)
  ∧ Forall (λ call : string * Z * Z * pyval F,
              call.1.1.1 = make_design_name target_settings call.1.1.2 call.1.2)
           (hallucinated (trace pass))
  ∧ count is_check_accepted (trace pass) = 1
  ∧ count is_hallucination (trace pass) ≤ count is_check_n_trajectories (trace pass)
  ∧ count is_check_n_trajectories (trace pass) ≤ 1
  ∧ (result pass).2
    = (trajectory_n + Z.of_nat (count is_hallucination (trace pass)))%Z.
Proof.
  intros pass. unfold pass. rewrite loop_body_unfold. cbv zeta.
  destruct (check_accepted_designs C e) as [[] e1]; cbn [fst snd].
  { rewrite trace_triple, result_triple. unfold count. simpl.
    split_and!; try done; try lia. by apply run_invariant_quiet. }
  destruct (check_n_trajectories C e1) as [[] e2]; cbn [fst snd].
  { rewrite trace_triple, result_triple. unfold count. simpl.
    split_and!; try done; try lia. by apply run_invariant_quiet. }
  destruct (time_time C e2) as [t e3]; cbn [fst snd].
  destruct (np_random_randint C 0 999999 e3) as [sd e4]; cbn [fst snd].
  destruct (np_random_choice C _ e4) as [ln e5]; cbn [fst snd].
  destruct (load_helicity C e5) as [hv e6]; cbn [fst snd].
  rewrite trace_triple, result_triple.
  assert (Hstep :
    let step := design_step C target_settings advanced_settings
                  (make_design_name target_settings ln sd) ln sd hv t
                  trajectory_n e6 in
    run_invariant C advanced_settings (trace step)
    ∧ (hallucinated (trace step) = []
       ∨ hallucinated (trace step)
         = [(make_design_name target_settings ln sd, ln, sd, hv)])
    ∧ count is_hallucination (trace step) ≤ 1
    ∧ count is_check_accepted (trace step) = 0
    ∧ count is_check_n_trajectories (trace step) = 0
    ∧ result step
      = (trajectory_n + Z.of_nat (count is_hallucination (trace step)))%Z).
  { intros step. unfold step, design_step. rewrite bind_probe.
    destruct (trajectory_exists C _ e6); cbn [negb].
    - run_script. read_outcome. rewrite trace_triple, result_triple.
      unfold count. simpl. split_and!; try done; try lia; [|by left].
      by apply run_invariant_quiet.
    - destruct (run_trajectory_facts (make_design_name target_settings ln sd)
                  ln sd hv t trajectory_n e6) as (H1 & H2 & H3 & H4 & H5 & _).
      destruct (run_trajectory_outcome C target_settings advanced_settings
                  (make_design_name target_settings ln sd) ln sd hv t
                  trajectory_n e6) as (Hres & _).
      cbv zeta in *. rewrite H3, Hres. split_and!; try done; try lia.
      by right. }
  cbv zeta in Hstep.
  set (step := design_step _ _ _ _ _ _ _ _ _ _) in *. clearbody step.
  destruct Hstep as (H1 & H2 & H3 & H4 & H5 & H6).
  rewrite !count_app, hallucinated_app. unfold count at 1 3 5 7. simpl.
  split_and!; try lia.
  - apply (run_invariant_app [_; _; _; _; _; _]); [|done].
    by apply run_invariant_quiet.
  - destruct H2 as [->| ->]; [constructor|]. by repeat constructor.
Qed.


Lemma design_loop_step fuel trajectory_n e :
  design_loop C target_settings advanced_settings (S fuel) trajectory_n e
  = let pass := loop_body C target_settings advanced_settings trajectory_n e in
    emit (trace pass)
      (match (result pass).1 with
       | Break => (Some (result pass).2, env_after pass, [])
       | Next =>
         design_loop C target_settings advanced_settings fuel (result pass).2
           (env_after pass)
       end).
Proof.
  cbn [design_loop]. rewrite bind_emit. cbv zeta.
  by destruct (result _) as [[] n].
Qed.

(** The whole loop: what holds of every run, however long. *)
Lemma design_loop_facts fuel trajectory_n e :
  let run := design_loop C target_settings advanced_settings fuel trajectory_n e in
  run_invariant C advanced_settings (trace run)
  ∧ Forall (λ call : string * Z * Z * pyval F,
              call.1.1.1 = make_design_name target_settings call.1.1.2 call.1.2)
           (hallucinated (trace run))
  ∧ count is_hallucination (trace run)
    ≤ count is_check_n_trajectories (trace run)
  ∧ count is_check_n_trajectories (trace run)
    ≤ count is_check_accepted (trace run)
  ∧ count is_check_accepted (trace run) ≤ fuel
  ∧ (∀ n, result run = Some n →
       n = (trajectory_n + Z.of_nat (count is_hallucination (trace run)))%Z).
Proof.
  revert trajectory_n e. induction fuel as [|fuel IH]; intros trajectory_n e.
  { intros run. unfold run. cbn [design_loop]. rewrite ret_alone.
    rewrite trace_triple, result_triple. unfold count. simpl.
    split_and!; try done. apply run_invariant_nil. }
  intros run. unfold run. rewrite design_loop_step. cbv zeta.
  destruct (loop_body_facts trajectory_n e) as (H1 & H2 & H3 & H4 & H5 & H6).
  set (pass := loop_body _ _ _ _ _) in *. clearbody pass.
  rewrite trace_emit, result_emit.
  destruct (result pass) as [[] n'] eqn:Hres; cbn [fst snd] in *.
  - rewrite trace_triple, result_triple, app_nil_r.
    split_and!; try done; try lia. intros n [= <-]. done.
  - destruct (IH n' (env_after pass)) as (I1 & I2 & I3 & I4 & I5 & I6).
    rewrite !count_app, hallucinated_app.
    split_and!; try lia.
    + by apply run_invariant_app.
    + by apply Forall_app.
    + intros n Hn. specialize (I6 n Hn). lia.
Qed.

End MoreProperties2.

(** ** What a run does, and what it never does *)

Section RunProperties.

Context {F Env : Type}.
Context (C : collaborators F Env).
Context (target_settings : target_settings_t F).
Context (advanced_settings : advanced_settings_t F).

Local Abbreviation dict := (gmap string (pyval F)).

(** X5. The candidates of a trajectory are validated in the order of the
    redesign's list, the candidate of index [i] under the name
    [<design_name>_mpnn_<i>], and without gaps: those validated are a
    prefix of the list.  Each complex prediction comes with a monomer
    prediction of the same sequence under the same name, also when the
    complex prediction fails. *)
Theorem candidates_validated_in_order design_name trajectory_pdb length seed
    helicity_value (trajectory_metrics : dict) candidates e :
  let run := mpnn_loop C target_settings advanced_settings design_name
               trajectory_pdb length seed helicity_value trajectory_metrics
               candidates 0 1%Z 0%Z e in
  predicted_complexes (trace run)
    `prefix_of` candidate_calls design_name 0 candidates
  ∧ predicted_monomers (trace run) = predicted_complexes (trace run).
Proof.
  intros run.
  destruct (mpnn_loop_calls C target_settings advanced_settings design_name
              trajectory_pdb length seed helicity_value trajectory_metrics
              candidates 0 1%Z 0%Z e) as (Hprefix & Hmono & _).
  done.
Qed.

(** X6. No two candidates of a trajectory are validated under the same
    name, so none overwrites the files of another. *)
Theorem candidate_names_are_distinct design_name trajectory_pdb length seed
    helicity_value (trajectory_metrics : dict) candidates e :
  NoDup (predicted_complexes
           (trace (mpnn_loop C target_settings advanced_settings design_name
                     trajectory_pdb length seed helicity_value
                     trajectory_metrics candidates 0 1%Z 0%Z e))).*2.
Proof.
  destruct (mpnn_loop_calls C target_settings advanced_settings design_name
              trajectory_pdb length seed helicity_value trajectory_metrics
              candidates 0 1%Z 0%Z e) as ([rest Hprefix] & _).
  pose proof (candidate_names_NoDup design_name 0 candidates) as Hnodup.
  rewrite Hprefix, fmap_app in Hnodup. by apply NoDup_app in Hnodup as [? _].
Qed.

(** X7. Over a whole run, however long, the rows of the final table are
    rows of the per-sequence table, in the same order: the accepted
    records are a sub-list of the per-sequence records. *)
Theorem final_rows_are_per_sequence_rows fuel trajectory_n e :
  let tr := trace (design_loop C target_settings advanced_settings fuel
                     trajectory_n e) in
  rows_of final_csv tr `sublist_of` rows_of mpnn_csv tr.
Proof. intros tr. apply design_loop_facts. Qed.


(** X9. When the redesign returns no sequence, or the cap
    [max_mpnn_sequences] is zero or negative, the stage (with the redesign
    enabled and no stop after it) validates nothing: the redesign is
    called, its message printed, the trajectory file removed if that is
    configured, and the trajectory ended. *)
Theorem nothing_to_validate trajectory design_name trajectory_pdb length seed
    helicity_value (trajectory_metrics : dict) trajectory_n e :
  let generated := mpnn_gen_sequence C trajectory design_name e in
  enable_mpnn advanced_settings = true →
  stop_after_mpnn_generation advanced_settings = false →
  generated.1 = [] ∨ (max_mpnn_sequences advanced_settings ≤ 0)%Z →
  mpnn_stage C target_settings advanced_settings trajectory design_name
    trajectory_pdb length seed helicity_value trajectory_metrics trajectory_n e
  = ((trajectory_n + 1)%Z,
     (if remove_unrelaxed_trajectory advanced_settings
      then remove_file C (Some trajectory_pdb) generated.2 else generated.2),
     [Ev_mpnn_gen_sequence design_name;
      Ev_print (generated_message design_name (List.length generated.1))]
     ++ (if remove_unrelaxed_trajectory advanced_settings
         then [Ev_remove_file (Some trajectory_pdb)] else [])
     ++ finish_events design_name).
Proof.
  intros generated Henable Hstop Hnone.
  rewrite mpnn_stage_unfold, Henable, Hstop. cbv zeta. fold generated.
  assert (Hloop :
    mpnn_loop C target_settings advanced_settings design_name trajectory_pdb
      length seed helicity_value trajectory_metrics generated.1 0 1%Z 0%Z
      generated.2 = (1%Z, 0%Z, generated.2, [])).
  { destruct Hnone as [-> | Hcap]; [done|]. by apply mpnn_loop_cap_reached. }
  by rewrite Hloop, env_after_triple, trace_triple.
Qed.


(** X11. With the three clean-up flags off, a whole run never calls
    [remove_file]. *)
Theorem no_removal_without_cleanup_flags fuel trajectory_n e :
  remove_unrelaxed_complex advanced_settings = false →
  remove_binder_monomer advanced_settings = false →
  remove_unrelaxed_trajectory advanced_settings = false →
  count is_remove
    (trace (design_loop C target_settings advanced_settings fuel
              trajectory_n e)) = 0.
Proof.
  intros H1 H2 H3.
  destruct (design_loop_facts C target_settings advanced_settings fuel
              trajectory_n e) as ((Hset & _) & _).
  eapply (count_excluded _ (remove_unrelaxed_complex advanced_settings = true
            ∨ remove_binder_monomer advanced_settings = true
            ∨ remove_unrelaxed_trajectory advanced_settings = true)).
  - intros [?|[?|?]]; congruence.
  - eapply Forall_impl; [exact Hset|]. by intros ev (_ & _ & Hev).
Qed.

(** X12. The file operations on one recorded candidate, in order: the
    three copies of an accepted design come before any removal, so the
    unrelaxed complex is copied before it is removed; the monomer of an
    accepted design is never removed; the monomer of a rejected design is
    removed exactly when [remove_binder_monomer] is set. *)
Theorem copies_precede_cleanup
    row name file complex_path relaxed_path monomer_pdb mpnn_passes e :
  let run := record_and_filter C advanced_settings row name file complex_path
               relaxed_path monomer_pdb mpnn_passes e in
  let accepted := design_paths C "MPNN/Accepted" in
  let passed :=
    (apply_final_filters C row name (add_row_to_csv C mpnn_csv row e)).1 in
  List.filter is_file_op (trace run)
  = (if passed then
       [Ev_copy_file (Some complex_path) (os_path_join accepted file);
        Ev_copy_file (Some relaxed_path)
          (os_path_join accepted (name +:+ "_relaxed.pdb"));
        Ev_copy_file monomer_pdb
          (os_path_join accepted (name +:+ "_monomer.pdb"))]
     else [])
    ++ (if remove_unrelaxed_complex advanced_settings
        then [Ev_remove_file (Some complex_path)] else [])
    ++ (if remove_binder_monomer advanced_settings && negb passed
        then [Ev_remove_file monomer_pdb] else []).
Proof.
  intros run accepted passed. unfold accepted, passed.
  destruct (apply_final_filters C row name (add_row_to_csv C mpnn_csv row e))
    as [ok e1] eqn:Hfinal.
  destruct (remove_unrelaxed_complex advanced_settings) eqn:Hcomplex;
    destruct (remove_binder_monomer advanced_settings) eqn:Hmonomer.
  all: focus_run run; unfold run, record_and_filter, when.
  all: rewrite ?Hcomplex, ?Hmonomer.
  all: run_script; read_outcome; unfocus_run.
  all: rewrite trace_triple; cbn [fst snd]; simpl.
  all: try discriminate.
  all: done.
Qed.

(** X13. When the loop stops, [trajectory_n] has grown by the number of
    hallucinations of the run: the counter counts the trajectories that
    were run, not the passes through the loop. *)
Theorem counter_counts_hallucinations fuel trajectory_n e n :
  let run := design_loop C target_settings advanced_settings fuel trajectory_n e in
  result run = Some n →
  n = (trajectory_n + Z.of_nat (count is_hallucination (trace run)))%Z.
Proof. intros run. apply design_loop_facts. Qed.

(** X14. Over a whole run, both stop conditions are consulted before
    every trajectory: there are at most as many hallucinations as calls
    of [check_n_trajectories], at most as many of those as calls of
    [check_accepted_designs], one per pass; and the redesign is called at
    most once per hallucination. *)
Theorem stop_conditions_before_every_trajectory fuel trajectory_n e :
  let tr := trace (design_loop C target_settings advanced_settings fuel
                     trajectory_n e) in
  count is_redesign tr ≤ count is_hallucination tr
  ∧ count is_hallucination tr ≤ count is_check_n_trajectories tr
  ∧ count is_check_n_trajectories tr ≤ count is_check_accepted tr
  ∧ count is_check_accepted tr ≤ fuel.
Proof.
  intros tr.
  destruct (design_loop_facts C target_settings advanced_settings fuel
              trajectory_n e) as ((_ & Hre & _) & _ & H1 & H2 & H3 & _).
  done.
Qed.

(** X15. Over a whole run, the final table gets at most
    [max_mpnn_sequences] rows per trajectory that was run. *)
Theorem accepted_rows_bounded_by_trajectories fuel trajectory_n e :
  let tr := trace (design_loop C target_settings advanced_settings fuel
                     trajectory_n e) in
  List.length (rows_of final_csv tr)
  ≤ Z.to_nat (max_mpnn_sequences advanced_settings) * count is_hallucination tr.
Proof.
  intros tr. rewrite rows_of_length.
  destruct (design_loop_facts C target_settings advanced_settings fuel
              trajectory_n e) as ((_ & _ & Hrows & _) & _).
  done.
Qed.

(** X16. Every hallucination of a run is called with the design name made
    of the binder name and of the very length and seed it is called
    with. *)
Theorem hallucination_name_matches_sample fuel trajectory_n e :
  Forall (λ call : string * Z * Z * pyval F,
            call.1.1.1 = make_design_name target_settings call.1.1.2 call.1.2)
         (hallucinated
            (trace (design_loop C target_settings advanced_settings fuel
                      trajectory_n e))).
Proof. apply design_loop_facts. Qed.

(** X17. A design with no file in any of the four trajectory directories
    is always run: the hallucination is called exactly once, with the
    name, length, seed and helicity of the iteration, and [trajectory_n]
    grows by one. *)
Theorem new_design_is_generated design_name length seed helicity_value
    start_time trajectory_n e :
  let run := design_step C target_settings advanced_settings design_name length
               seed helicity_value start_time trajectory_n e in
  (∀ d, d ∈ trajectory_dirs →
        os_path_exists C
          (os_path_join (design_paths C d) (design_name +:+ ".pdb")) e = false) →
  hallucinated (trace run) = [(design_name, length, seed, helicity_value)]
  ∧ result run = (trajectory_n + 1)%Z.
Proof.
  intros run Hnone.
  assert (Hex : trajectory_exists C design_name e = false).
  { unfold trajectory_exists. apply not_true_is_false.
    intros (d & Hd & Hdex)%existsb_exists.
    apply list_elem_of_In in Hd. rewrite (Hnone d Hd) in Hdex. done. }
  unfold run, design_step. rewrite bind_probe, Hex. cbn [negb].
  destruct (run_trajectory_facts C target_settings advanced_settings design_name
              length seed helicity_value start_time trajectory_n e)
    as (_ & Hnames & _).
  destruct (run_trajectory_outcome C target_settings advanced_settings
              design_name length seed helicity_value start_time trajectory_n e)
    as (Hres & _).
  done.
Qed.

(** X18. A trajectory is redesigned only when its log carries the key
    ["terminate"] with the empty string.  When the log is missing, or
    the key is missing from it (the default ["Unknown"] is then compared
    with the empty string), the trajectory is abandoned like a terminated
    one: it is neither relaxed nor scored, no row is written, the redesign
    is not called, and [trajectory_n] grows by one. *)
Theorem missing_terminate_key_abandons design_name length seed helicity_value
    start_time trajectory_n e :
  let trajectory :=
    (binder_hallucination C design_name length seed helicity_value e).1 in
  let run := run_trajectory C target_settings advanced_settings design_name
               length seed helicity_value start_time trajectory_n e in
  (no_termination_signal trajectory = true ↔
   ∃ log, aux_log trajectory = Some log ∧ log !! "terminate" = Some (PStr ""))
  ∧ (aux_log trajectory = None
     ∨ (∃ log, aux_log trajectory = Some log ∧ log !! "terminate" = None) →
     count is_relax_or_score (trace run) = 0
     ∧ rows_of trajectory_csv (trace run) = []
     ∧ count is_redesign (trace run) = 0
     ∧ result run = (trajectory_n + 1)%Z).
Proof.
  intros trajectory run.
  assert (Hiff : no_termination_signal trajectory = true ↔
    ∃ log, aux_log trajectory = Some log ∧ log !! "terminate" = Some (PStr "")).
  { unfold no_termination_signal, dict_get.
    destruct (aux_log trajectory) as [log|]; [|split; [done|by intros (? & ? & ?)]].
    split.
    - intros Heq. exists log. split; [done|].
      destruct (log !! "terminate") as [[| | | |s]|]; simpl in Heq; try done.
      by apply bool_decide_eq_true in Heq as ->.
    - intros (log' & [= <-] & ->). done. }
  split; [exact Hiff|]. intros Hmissing.
  assert (Hterm : no_termination_signal trajectory = false).
  { apply not_true_is_false. rewrite Hiff. intros (log & Hlog & Hkey).
    destruct Hmissing as [Hnone|(log' & Hlog' & Hkey')]; congruence. }
  unfold run.
  destruct (run_trajectory_shape C target_settings advanced_settings design_name
              length seed helicity_value start_time trajectory_n e)
    as (pre & e1 & Hpre & Hrow & Hscore & _ & ->).
  fold trajectory in Hrow, Hscore. rewrite Hterm in Hrow, Hscore.
  fold trajectory. rewrite Hterm, trace_triple, result_triple.
  apply prelude_counts in Hpre as (Hre & _).
  rewrite !count_cons, Hscore, Hre. simpl.
  split_and!; [done| |done|done]. by apply rows_of_no_rows.
Qed.

(** X19. The one row of a scored trajectory: it has 39 columns, the first
    is the design name, and its metric columns, the termination column
    included, are read from the rounded log of the best iteration
    ([trajectory._tmp]), not from the log that was tested for the
    termination signal ([trajectory.aux]). *)
Theorem trajectory_row_columns design_name length seed helicity_value
    start_time trajectory_n e :
  let trajectory :=
    (binder_hallucination C design_name length seed helicity_value e).1 in
  let metrics : dict :=
    round_metrics C (default ∅ (tmp_best_aux_log trajectory)) in
  let run := run_trajectory C target_settings advanced_settings design_name
               length seed helicity_value start_time trajectory_n e in
  List.length (rows_of trajectory_csv (trace run))
  = (if no_termination_signal trajectory then 1 else 0)
  ∧ Forall (λ row : list (pyval F),
              List.length row = 39
              ∧ row !! 0 = Some (PStr design_name)
              ∧ row !! 8 = Some (dict_get metrics "plddt" PNone)
              ∧ row !! 9 = Some (dict_get metrics "ptm" PNone)
              ∧ row !! 10 = Some (dict_get metrics "i_ptm" PNone)
              ∧ row !! 11 = Some (dict_get metrics "pae" PNone)
              ∧ row !! 12 = Some (dict_get metrics "i_pae" PNone)
              ∧ row !! 35 = Some (dict_get metrics "helix_probability" PNone)
              ∧ row !! 38 = Some (dict_get metrics "terminate" PNone))
           (rows_of trajectory_csv (trace run)).
Proof.
  intros trajectory metrics run.
  destruct (run_trajectory_outcome C target_settings advanced_settings
              design_name length seed helicity_value start_time trajectory_n e)
    as (_ & _ & Hcount & _).
  split; [by rewrite rows_of_length|].
  unfold run.
  destruct (run_trajectory_shape C target_settings advanced_settings design_name
              length seed helicity_value start_time trajectory_n e)
    as (pre & e1 & Hpre & _ & _ & _ & ->).
  fold trajectory. fold metrics in Hpre |- *.
  apply prelude_rows in Hpre.
  assert (Hrows : Forall (λ row : list (pyval F),
              List.length row = 39
              ∧ row !! 0 = Some (PStr design_name)
              ∧ row !! 8 = Some (dict_get metrics "plddt" PNone)
              ∧ row !! 9 = Some (dict_get metrics "ptm" PNone)
              ∧ row !! 10 = Some (dict_get metrics "i_ptm" PNone)
              ∧ row !! 11 = Some (dict_get metrics "pae" PNone)
              ∧ row !! 12 = Some (dict_get metrics "i_pae" PNone)
              ∧ row !! 35 = Some (dict_get metrics "helix_probability" PNone)
              ∧ row !! 38 = Some (dict_get metrics "terminate" PNone))
           (rows_of trajectory_csv pre)).
  { eapply Forall_impl; [exact Hpre|]. by intros row (_ & Hrow). }
  destruct (no_termination_signal trajectory).
  - rewrite trace_emit.
    match goal with
    | |- context [mpnn_stage C ?ts ?adv ?t ?dn ?pdb ?len ?sd ?hv ?tm ?n ?e'] =>
      destruct (mpnn_stage_outcome C ts adv t dn pdb len sd hv tm n e')
        as (_ & Hsub);
      set (stage := trace (mpnn_stage C ts adv t dn pdb len sd hv tm n e')) in *
    end.
    clearbody stage.
    apply sub_loop_no_trajectory_row in Hsub as [Hnorow _].
    apply rows_of_no_rows in Hnorow.
    change (?a :: ?b :: pre) with ([a; b] ++ pre).
    rewrite !rows_of_app, Hnorow, app_nil_r. done.
  - rewrite trace_triple. change (?a :: ?b :: pre) with ([a; b] ++ pre).
    by rewrite rows_of_app.
Qed.

(** X20. When the metrics of a trajectory cannot be retrieved, the run
    goes on with an empty mapping: the warning is printed, the trajectory
    row (if the trajectory is scored) has [None] in its seven metric
    columns, and so has the helix-probability column of every
    per-sequence row. *)
Theorem missing_metrics_are_recorded_as_none design_name length seed
    helicity_value start_time trajectory_n e :
  let trajectory :=
    (binder_hallucination C design_name length seed helicity_value e).1 in
  let run := run_trajectory C target_settings advanced_settings design_name
               length seed helicity_value start_time trajectory_n e in
  tmp_best_aux_log trajectory = None →
  Ev_print (missing_metrics_warning design_name) ∈ trace run
  ∧ Forall (λ row : list (pyval F),
              row !! 8 = Some PNone ∧ row !! 9 = Some PNone
              ∧ row !! 10 = Some PNone ∧ row !! 11 = Some PNone
              ∧ row !! 12 = Some PNone ∧ row !! 35 = Some PNone
              ∧ row !! 38 = Some PNone)
           (rows_of trajectory_csv (trace run))
  ∧ Forall (λ row : list (pyval F), row !! 42 = Some PNone)
           (rows_of mpnn_csv (trace run)).
Proof.
  intros trajectory run Hnone.
  assert (Hempty : ∀ k, dict_get (round_metrics C (∅ : dict)) k PNone = PNone).
  { intros k. unfold dict_get, round_metrics. by rewrite fmap_empty, lookup_empty. }
  destruct (run_trajectory_outcome C target_settings advanced_settings
              design_name length seed helicity_value start_time trajectory_n e)
    as (_ & _ & _ & Hhelix).
  fold trajectory in Hhelix. rewrite Hnone in Hhelix. cbn [default] in Hhelix.
  fold run in Hhelix.
  split_and!.
  - unfold run.
    destruct (run_trajectory_shape C target_settings advanced_settings
                design_name length seed helicity_value start_time trajectory_n e)
      as (pre & e1 & _ & _ & _ & Hwarn & ->).
    specialize (Hwarn Hnone). fold trajectory.
    destruct (no_termination_signal trajectory).
    + rewrite trace_emit. apply elem_of_app. left. by do 2 right.
    + rewrite trace_triple. by do 2 right.
  - unfold run.
    destruct (run_trajectory_shape C target_settings advanced_settings
                design_name length seed helicity_value start_time trajectory_n e)
      as (pre & e1 & Hpre & _ & _ & _ & ->).
    fold trajectory in Hpre |- *. rewrite Hnone in Hpre. cbn [default] in Hpre.
    apply prelude_rows in Hpre.
    assert (Hrows : Forall (λ row : list (pyval F),
              row !! 8 = Some PNone ∧ row !! 9 = Some PNone
              ∧ row !! 10 = Some PNone ∧ row !! 11 = Some PNone
              ∧ row !! 12 = Some PNone ∧ row !! 35 = Some PNone
              ∧ row !! 38 = Some PNone)
           (rows_of trajectory_csv pre)).
    { eapply Forall_impl; [exact Hpre|]. intros row (_ & _ & _ & Hrow).
      by rewrite !Hempty in Hrow. }
    destruct (no_termination_signal trajectory).
    + rewrite trace_emit. rewrite Hnone. cbn [default].
      match goal with
      | |- context [mpnn_stage C ?ts ?adv ?t ?dn ?pdb ?len ?sd ?hv ?tm ?n ?e'] =>
        destruct (mpnn_stage_outcome C ts adv t dn pdb len sd hv tm n e')
          as (_ & Hsub);
        set (stage := trace (mpnn_stage C ts adv t dn pdb len sd hv tm n e')) in *
      end.
      clearbody stage.
      apply sub_loop_no_trajectory_row in Hsub as [Hnorow _].
      apply rows_of_no_rows in Hnorow.
      change (?a :: ?b :: pre) with ([a; b] ++ pre).
      rewrite !rows_of_app, Hnorow, app_nil_r. done.
    + rewrite trace_triple. change (?a :: ?b :: pre) with ([a; b] ++ pre).
      by rewrite rows_of_app.
  - eapply Forall_impl; [exact Hhelix|]. intros row [_ Hrow].
    by rewrite Hempty in Hrow.
Qed.

End RunProperties.

(** ** More concrete runs *)

Section MoreRuns.

Import Demo.

Example settings_name_default_filters :
  settings_name "./settings_filters/default_filters.json" = "default_filters".
Proof. reflexivity. Qed.

Example settings_name_two_dots :
  settings_name "./settings_advanced/default_4stage.multimer.json"
  = "default_4stage".
Proof. reflexivity. Qed.

Example os_path_join_absolute_name :
  os_path_join "out/Trajectory" "/etc/x_l60_s42.pdb" = "/etc/x_l60_s42.pdb".
Proof. reflexivity. Qed.

Lemma X1_witness :
  make_design_name target 60 42 = make_design_name target 60 42
  ∧ (60 = 60 ∧ 42 = 42)%Z.
Proof.
  split; [reflexivity|].
  exact (design_name_determines_sample target 60 42 60 42 eq_refl).
Defined.


Lemma X4_witness :
  ("/"%char ∉ chars "target") ∧ ("."%char ∉ chars "target")
  ∧ ("/"%char ∉ chars "v2.json")
  ∧ settings_name ("./settings.d/runs" +:+ "/" +:+ "target" +:+ "." +:+ "v2.json")
    = "target".
Proof.
  assert (H1 : "/"%char ∉ chars "target").
  { simpl. rewrite !not_elem_of_cons. split_and!; try done. apply not_elem_of_nil. }
  assert (H2 : "."%char ∉ chars "target").
  { simpl. rewrite !not_elem_of_cons. split_and!; try done. apply not_elem_of_nil. }
  assert (H3 : "/"%char ∉ chars "v2.json").
  { simpl. rewrite !not_elem_of_cons. split_and!; try done. apply not_elem_of_nil. }
  split_and!; [exact H1|exact H2|exact H3|].
  exact (proj1 (proj2 (settings_name_is_the_stem "./settings.d/runs" "target"
                         "v2.json") H1 H2 H3)).
Defined.

Lemma X9_witness :
  let C := collab (two_candidates (λ _, true)) in
  let adv := advanced None 0 in
  enable_mpnn adv = true
  ∧ stop_after_mpnn_generation adv = false
  ∧ (max_mpnn_sequences adv ≤ 0)%Z
  ∧ trace (mpnn_stage C target adv (trajectory (two_candidates (λ _, true)))
             "PDL1_l60_s0" "out/Trajectory/PDL1_l60_s0.pdb" 60 0 (PInt 0)
             metrics 1%Z empty_world)
    = [Ev_mpnn_gen_sequence "PDL1_l60_s0";
       Ev_print "MPNN generated 2 sequences for PDL1_l60_s0";
       Ev_remove_file (Some "out/Trajectory/PDL1_l60_s0.pdb");
       Ev_print "Finished trajectory: PDL1_l60_s0";
       Ev_print "------------------------------------------------------------";
       Ev_print ""].
Proof.
  intros C adv.
  assert (H1 : enable_mpnn adv = true) by reflexivity.
  assert (H2 : stop_after_mpnn_generation adv = false) by reflexivity.
  assert (H3 : (max_mpnn_sequences adv ≤ 0)%Z) by reflexivity.
  split_and!; [exact H1|exact H2|exact H3|].
  rewrite (nothing_to_validate C target adv
             (trajectory (two_candidates (λ _, true))) "PDL1_l60_s0"
             "out/Trajectory/PDL1_l60_s0.pdb" 60 0 (PInt 0) metrics 1%Z
             empty_world H1 H2 (or_intror H3)).
  reflexivity.
Defined.


Lemma X11_witness :
  let C := collab (two_candidates (λ _, true)) in
  let tr := trace (design_loop C target Cases.keep_all 3 1%Z empty_world) in
  remove_unrelaxed_complex Cases.keep_all = false
  ∧ remove_binder_monomer Cases.keep_all = false
  ∧ remove_unrelaxed_trajectory Cases.keep_all = false
  ∧ count (is_add_row final_csv) tr = 2
  ∧ count is_remove tr = 0.
Proof.
  intros C tr.
  split_and!; [reflexivity|reflexivity|reflexivity|by vm_compute|].
  exact (no_removal_without_cleanup_flags C target Cases.keep_all 3 1%Z
           empty_world eq_refl eq_refl eq_refl).
Defined.

Lemma X13_witness :
  let C := collab (two_candidates (λ _, false)) in
  let run := design_loop C target (advanced None 1) 5 1%Z empty_world in
  result run = Some 4%Z
  ∧ 4%Z = (1 + Z.of_nat (count is_hallucination (trace run)))%Z.
Proof.
  intros C run.
  assert (Hres : result run = Some 4%Z) by (by vm_compute).
  split; [exact Hres|].
  exact (counter_counts_hallucinations C target (advanced None 1) 5 1%Z
           empty_world 4%Z Hres).
Defined.

Lemma X17_witness :
  let C := collab (two_candidates (λ _, true)) in
  (∀ d, d ∈ trajectory_dirs →
        os_path_exists C
          (os_path_join (design_paths C d) ("PDL1_l60_s0" +:+ ".pdb"))
          empty_world = false)
  ∧ hallucinated
      (trace (design_step C target (advanced None 1) "PDL1_l60_s0" 60 0
                (PInt 0) 0%Z 1%Z empty_world))
    = [("PDL1_l60_s0", 60%Z, 0%Z, PInt 0)].
Proof.
  intros C.
  assert (Hnone : ∀ d, d ∈ trajectory_dirs →
        os_path_exists C
          (os_path_join (design_paths C d) ("PDL1_l60_s0" +:+ ".pdb"))
          empty_world = false) by (intros d _; reflexivity).
  split; [exact Hnone|].
  exact (proj1 (new_design_is_generated C target (advanced None 1)
                  "PDL1_l60_s0" 60 0 (PInt 0) 0%Z 1%Z empty_world Hnone)).
Defined.

Lemma X18_witness :
  let C := Cases.collab Cases.no_terminate_key in
  let run := run_trajectory C target (advanced None 1) "PDL1_l60_s0" 60 0
               (PInt 0) 0%Z 1%Z empty_world in
  (∃ log, aux_log Cases.no_terminate_key = Some log
          ∧ log !! "terminate" = None)
  ∧ rows_of trajectory_csv (trace run) = []
  ∧ count is_redesign (trace run) = 0
  ∧ result run = 2%Z.
Proof.
  intros C run.
  assert (Hkey : ∃ log, aux_log Cases.no_terminate_key = Some log
                        ∧ log !! "terminate" = None).
  { exists ∅. split; reflexivity. }
  destruct (missing_terminate_key_abandons C target (advanced None 1)
              "PDL1_l60_s0" 60 0 (PInt 0) 0%Z 1%Z empty_world)
    as (_ & Habandon).
  destruct (Habandon (or_intror Hkey)) as (_ & Hrows & Hre & Hres).
  split_and!; [exact Hkey|exact Hrows|exact Hre|exact Hres].
Defined.

Lemma X20_witness :
  let C := Cases.collab Cases.no_metrics in
  let run := run_trajectory C target (advanced None 1) "PDL1_l60_s0" 60 0
               (PInt 0) 0%Z 1%Z empty_world in
  tmp_best_aux_log Cases.no_metrics = None
  ∧ List.length (rows_of trajectory_csv (trace run)) = 1
  ∧ List.length (rows_of mpnn_csv (trace run)) = 1
  ∧ Forall (λ row : list (pyval Z), row !! 42 = Some PNone)
           (rows_of mpnn_csv (trace run)).
Proof.
  intros C run.
  assert (Hnone : tmp_best_aux_log Cases.no_metrics = None) by reflexivity.
  destruct (missing_metrics_are_recorded_as_none C target (advanced None 1)
              "PDL1_l60_s0" 60 0 (PInt 0) 0%Z 1%Z empty_world Hnone)
    as (_ & _ & Hhelix).
  split_and!; [exact Hnone|by vm_compute|by vm_compute|exact Hhelix].
Defined.

End MoreRuns.
